(** * Telescope mount drivers: the simulated Alt/Az mount and the 10micron
    LX200 driver

  A shallow embedding of [drivers/telescope/AltAzMountSimulator.cpp] and of
  [libindi/drivers/telescope/lx200_10micron.cpp].

  - C [double] and [float] values are IEEE 754 binary64 and binary32 numbers,
    written with the Standard Library's [spec_float] and its operations
    (round to nearest, ties to even).
  - Member variables of a driver are the fields of a record; a method is a
    function from the record to a return value and the next record.
  - Clock reads, the serial line and the astronomy library are inputs of the
    functions that use them. *)

From Stdlib Require Import ZArith Bool List Ascii String DecimalString Lia SpecFloat.
Import ListNotations.
Local Open Scope Z_scope.

(* ================================================================== *)
(** ** IEEE 754 numbers *)
(* ================================================================== *)

Module IEEE754.

(** [double]: binary64, 53 bits of precision, infinities at exponent 1024. *)
Definition double : Type := spec_float.

(** [float]: binary32, 24 bits of precision, infinities at exponent 128. *)
Definition float : Type := spec_float.

(** Conversion of an integer to [double] (C's usual arithmetic conversion). *)
Definition d_of_Z (z : Z) : double := binary_normalize 53 1024 z 0 false.

Definition d_add (x y : double) : double := SFadd 53 1024 x y.
Definition d_sub (x y : double) : double := SFsub 53 1024 x y.
Definition d_mul (x y : double) : double := SFmul 53 1024 x y.
Definition d_div (x y : double) : double := SFdiv 53 1024 x y.

(** [fabs]. *)
Definition fabs (x : double) : double := SFabs x.

(** The comparisons [x <= y] and [x > y] of C: false on a NaN. *)
Definition d_le (x y : double) : bool := SFleb x y.
Definition d_gt (x y : double) : bool := SFltb y x.

(** Neither an infinity nor a NaN. *)
Definition is_finite (x : spec_float) : bool :=
  match x with
  | S754_zero _ | S754_finite _ _ _ => true
  | S754_infinity _ | S754_nan => false
  end.

(** The same number in the same representation (not C's [==]: a NaN is the
    same as itself, and the two zeros differ). *)
Definition same_float (x y : spec_float) : bool :=
  match x, y with
  | S754_zero s, S754_zero s' => Bool.eqb s s'
  | S754_infinity s, S754_infinity s' => Bool.eqb s s'
  | S754_nan, S754_nan => true
  | S754_finite s m e, S754_finite s' m' e' => Bool.eqb s s' && Pos.eqb m m' && Z.eqb e e'
  | _, _ => false
  end.

(** A number (no NaN) with the sign bit [sx]. *)
Definition has_sign (sx : bool) (x : spec_float) : Prop :=
  match x with
  | S754_zero s | S754_infinity s | S754_finite s _ _ => s = sx
  | S754_nan => False
  end.

(** Conversion of an integer to [float]. *)
Definition f_of_Z (z : Z) : float := binary_normalize 24 128 z 0 false.

(** [(double) f]: every binary32 number is a binary64 number; only the
    representation (mantissa width) changes. *)
Definition double_of_float (f : float) : double :=
  match f with
  | S754_finite s m e => binary_round 53 1024 s m e
  | other => other
  end.

(** The decimal numeral [n / 10^k] rounded once to the nearest [float] or
    [double]: the value a correctly rounding [strtof] / [strtod] returns for a
    numeral whose digits spell [n] with [k] of them after the point. *)
Definition f_of_decimal (neg : bool) (n : Z) (k : Z) : float :=
  match n with
  | Z0 => S754_zero neg
  | Zpos p =>
      if 0 <=? k
      then SFdiv 24 128 (S754_finite neg p 0)
                        (S754_finite false (Z.to_pos (10 ^ k)) 0)
      else binary_normalize 24 128
             (if neg then - (n * 10 ^ (- k)) else n * 10 ^ (- k)) 0 neg
  | Zneg _ => S754_nan
  end.

Definition d_of_decimal (neg : bool) (n : Z) (k : Z) : double :=
  match n with
  | Z0 => S754_zero neg
  | Zpos p =>
      if 0 <=? k
      then SFdiv 53 1024 (S754_finite neg p 0)
                         (S754_finite false (Z.to_pos (10 ^ k)) 0)
      else binary_normalize 53 1024
             (if neg then - (n * 10 ^ (- k)) else n * 10 ^ (- k)) 0 neg
  | Zneg _ => S754_nan
  end.

End IEEE754.

(* ================================================================== *)
(** ** What both drivers take from the INDI framework *)
(* ================================================================== *)

Module INDI.
Import IEEE754.

(** Modelled from the spec: [INDI::Telescope::TelescopeStatus], the Motion
    State and type of [TrackState], declared in the base class outside the
    sources. Its values are the five enumerators the two drivers name; the
    spec's Unparking has none of its own (the 10micron driver reports an
    unparking mount as tracking). *)
Inductive TelescopeStatus : Type :=
| SCOPE_IDLE
| SCOPE_SLEWING
| SCOPE_TRACKING
| SCOPE_PARKING
| SCOPE_PARKED.

Definition TelescopeStatus_eqb (a b : TelescopeStatus) : bool :=
  match a, b with
  | SCOPE_IDLE, SCOPE_IDLE
  | SCOPE_SLEWING, SCOPE_SLEWING
  | SCOPE_TRACKING, SCOPE_TRACKING
  | SCOPE_PARKING, SCOPE_PARKING
  | SCOPE_PARKED, SCOPE_PARKED => true
  | _, _ => false
  end.

(** The logging macros: a level and the format string of the call. *)
Inductive log_level : Type := DBG_ERROR | DBG_WARNING | DBG_SESSION | DBG_DEBUG | DBG_SCOPE.

Definition log_line : Type := (log_level * string)%type.

(** [struct timeval]. *)
Record timeval : Type := { tv_sec : Z; tv_usec : Z }.

End INDI.

(* ================================================================== *)
(** ** drivers/telescope/AltAzMountSimulator.cpp *)
(* ================================================================== *)

Module AltAzMountSimulator.
Import IEEE754 INDI.

(** The functions of libnova and indicom that [ReadScopeStatus] calls:
    [ln_get_hrz_from_equ (ra, dec) (lng, lat) JD] returns [(az, alt)]. *)
Class Astronomy : Type := {
  ln_get_hrz_from_equ : double * double -> double * double -> double -> double * double;
  range360 : double -> double
}.

(** What one timer tick reads from the system: [gettimeofday] and
    [ln_get_julian_from_sys]. *)
Record clock : Type := { now : timeval; julian : double }.

(** The member variables, the base-class fields the driver reads or writes,
    and the function-local statics of [TimerHit]. *)
Record state : Type := {
  currentRA : double;
  currentDEC : double;
  targetRA : double;
  targetDEC : double;
  TrackState : TelescopeStatus;
  LocationN_LONGITUDE : double;
  LocationN_LATITUDE : double;
  EqN : double * double;
  HorizontalCoordsN_AZ : double;
  HorizontalCoordsN_ALT : double;
  Slewing : bool;
  Tracking : bool;
  ltv : timeval;
  log : list log_line
}.

(** [static const uint8_t SLEW_RATE = 3], degrees per second. *)
Definition SLEW_RATE : Z := 3.

(** The values of the header's member initialisers; the statics of
    [TimerHit] start at false and at [{0, 0}]. *)
Definition initial (lng lat : double) : state :=
  {| currentRA := d_of_Z 0; currentDEC := d_of_Z 90;
     targetRA := d_of_Z 0; targetDEC := d_of_Z 0;
     TrackState := SCOPE_IDLE;
     LocationN_LONGITUDE := lng; LocationN_LATITUDE := lat;
     EqN := (d_of_Z 0, d_of_Z 0);
     HorizontalCoordsN_AZ := d_of_Z 0; HorizontalCoordsN_ALT := d_of_Z 0;
     Slewing := false; Tracking := false;
     ltv := {| tv_sec := 0; tv_usec := 0 |};
     log := [] |}.

Definition LOG (l : log_level) (msg : string) (s : state) : state :=
  {| currentRA := currentRA s; currentDEC := currentDEC s;
     targetRA := targetRA s; targetDEC := targetDEC s;
     TrackState := TrackState s;
     LocationN_LONGITUDE := LocationN_LONGITUDE s;
     LocationN_LATITUDE := LocationN_LATITUDE s;
     EqN := EqN s;
     HorizontalCoordsN_AZ := HorizontalCoordsN_AZ s;
     HorizontalCoordsN_ALT := HorizontalCoordsN_ALT s;
     Slewing := Slewing s; Tracking := Tracking s; ltv := ltv s;
     log := log s ++ [(l, msg)] |}.

Definition set_TrackState (t : TelescopeStatus) (s : state) : state :=
  {| currentRA := currentRA s; currentDEC := currentDEC s;
     targetRA := targetRA s; targetDEC := targetDEC s;
     TrackState := t;
     LocationN_LONGITUDE := LocationN_LONGITUDE s;
     LocationN_LATITUDE := LocationN_LATITUDE s;
     EqN := EqN s;
     HorizontalCoordsN_AZ := HorizontalCoordsN_AZ s;
     HorizontalCoordsN_ALT := HorizontalCoordsN_ALT s;
     Slewing := Slewing s; Tracking := Tracking s; ltv := ltv s;
     log := log s |}.

Definition set_target (ra dec : double) (s : state) : state :=
  {| currentRA := currentRA s; currentDEC := currentDEC s;
     targetRA := ra; targetDEC := dec;
     TrackState := TrackState s;
     LocationN_LONGITUDE := LocationN_LONGITUDE s;
     LocationN_LATITUDE := LocationN_LATITUDE s;
     EqN := EqN s;
     HorizontalCoordsN_AZ := HorizontalCoordsN_AZ s;
     HorizontalCoordsN_ALT := HorizontalCoordsN_ALT s;
     Slewing := Slewing s; Tracking := Tracking s; ltv := ltv s;
     log := log s |}.

Definition set_currentRA (ra : double) (s : state) : state :=
  {| currentRA := ra; currentDEC := currentDEC s;
     targetRA := targetRA s; targetDEC := targetDEC s;
     TrackState := TrackState s;
     LocationN_LONGITUDE := LocationN_LONGITUDE s;
     LocationN_LATITUDE := LocationN_LATITUDE s;
     EqN := EqN s;
     HorizontalCoordsN_AZ := HorizontalCoordsN_AZ s;
     HorizontalCoordsN_ALT := HorizontalCoordsN_ALT s;
     Slewing := Slewing s; Tracking := Tracking s; ltv := ltv s;
     log := log s |}.

Definition set_currentDEC (dec : double) (s : state) : state :=
  {| currentRA := currentRA s; currentDEC := dec;
     targetRA := targetRA s; targetDEC := targetDEC s;
     TrackState := TrackState s;
     LocationN_LONGITUDE := LocationN_LONGITUDE s;
     LocationN_LATITUDE := LocationN_LATITUDE s;
     EqN := EqN s;
     HorizontalCoordsN_AZ := HorizontalCoordsN_AZ s;
     HorizontalCoordsN_ALT := HorizontalCoordsN_ALT s;
     Slewing := Slewing s; Tracking := Tracking s; ltv := ltv s;
     log := log s |}.

Definition set_LONGITUDE (lng : double) (s : state) : state :=
  {| currentRA := currentRA s; currentDEC := currentDEC s;
     targetRA := targetRA s; targetDEC := targetDEC s;
     TrackState := TrackState s;
     LocationN_LONGITUDE := lng;
     LocationN_LATITUDE := LocationN_LATITUDE s;
     EqN := EqN s;
     HorizontalCoordsN_AZ := HorizontalCoordsN_AZ s;
     HorizontalCoordsN_ALT := HorizontalCoordsN_ALT s;
     Slewing := Slewing s; Tracking := Tracking s; ltv := ltv s;
     log := log s |}.

Definition set_HorizontalCoordsN (az al : double) (s : state) : state :=
  {| currentRA := currentRA s; currentDEC := currentDEC s;
     targetRA := targetRA s; targetDEC := targetDEC s;
     TrackState := TrackState s;
     LocationN_LONGITUDE := LocationN_LONGITUDE s;
     LocationN_LATITUDE := LocationN_LATITUDE s;
     EqN := EqN s;
     HorizontalCoordsN_AZ := az;
     HorizontalCoordsN_ALT := al;
     Slewing := Slewing s; Tracking := Tracking s; ltv := ltv s;
     log := log s |}.

Definition set_statics (slewing tracking : bool) (s : state) : state :=
  {| currentRA := currentRA s; currentDEC := currentDEC s;
     targetRA := targetRA s; targetDEC := targetDEC s;
     TrackState := TrackState s;
     LocationN_LONGITUDE := LocationN_LONGITUDE s;
     LocationN_LATITUDE := LocationN_LATITUDE s;
     EqN := EqN s;
     HorizontalCoordsN_AZ := HorizontalCoordsN_AZ s;
     HorizontalCoordsN_ALT := HorizontalCoordsN_ALT s;
     Slewing := slewing; Tracking := tracking; ltv := ltv s;
     log := log s |}.

Definition set_ltv (tv : timeval) (s : state) : state :=
  {| currentRA := currentRA s; currentDEC := currentDEC s;
     targetRA := targetRA s; targetDEC := targetDEC s;
     TrackState := TrackState s;
     LocationN_LONGITUDE := LocationN_LONGITUDE s;
     LocationN_LATITUDE := LocationN_LATITUDE s;
     EqN := EqN s;
     HorizontalCoordsN_AZ := HorizontalCoordsN_AZ s;
     HorizontalCoordsN_ALT := HorizontalCoordsN_ALT s;
     Slewing := Slewing s; Tracking := Tracking s; ltv := tv;
     log := log s |}.

(** Modelled from the spec: [INDI::Telescope::NewRaDec], the upward report
    of the equatorial pair ([reportEquatorial(ra, dec)]); the base class is
    not among the sources. *)
Definition NewRaDec (ra dec : double) (s : state) : state :=
  {| currentRA := currentRA s; currentDEC := currentDEC s;
     targetRA := targetRA s; targetDEC := targetDEC s;
     TrackState := TrackState s;
     LocationN_LONGITUDE := LocationN_LONGITUDE s;
     LocationN_LATITUDE := LocationN_LATITUDE s;
     EqN := (ra, dec);
     HorizontalCoordsN_AZ := HorizontalCoordsN_AZ s;
     HorizontalCoordsN_ALT := HorizontalCoordsN_ALT s;
     Slewing := Slewing s; Tracking := Tracking s; ltv := ltv s;
     log := log s |}.

(** [bool AltAzMountSimulator::Goto(double ra, double dec)] *)
Definition Goto (ra dec : double) (s : state) : bool * state :=
  let s := set_target ra dec s in
  let s := set_TrackState SCOPE_SLEWING s in
  let s := LOG DBG_SESSION "Slewing to RA: %s - DEC: %s" s in
  (true, s).

(** The text both jog handlers log when they refuse. *)
Definition unpark_first : string :=
  "Please unpark the mount before issuing any motion commands.".

(** [bool AltAzMountSimulator::MoveNS(INDI_DIR_NS, TelescopeMotionCommand)];
    both arguments are [INDI_UNUSED]. *)
Definition MoveNS (s : state) : bool * state :=
  if TelescopeStatus_eqb (TrackState s) SCOPE_PARKED
  then (false, LOG DBG_ERROR unpark_first s)
  else (true, s).

(** [bool AltAzMountSimulator::MoveWE(INDI_DIR_WE, TelescopeMotionCommand)] *)
Definition MoveWE (s : state) : bool * state :=
  if TelescopeStatus_eqb (TrackState s) SCOPE_PARKED
  then (false, LOG DBG_ERROR unpark_first s)
  else (true, s).

(** [bool AltAzMountSimulator::Abort()] *)
Definition Abort (s : state) : bool * state := (true, s).

(** The longitude handed to libnova:
    [lnobserver.lng = LocationN[LOCATION_LONGITUDE].value;
     if (lnobserver.lng > 180) lnobserver.lng -= 360;] *)
Definition lnobserver_lng (s : state) : double :=
  let lng := LocationN_LONGITUDE s in
  if d_gt lng (d_of_Z 180) then d_sub lng (d_of_Z 360) else lng.

(** [bool AltAzMountSimulator::ReadScopeStatus()]; [JD] is the value of
    [ln_get_julian_from_sys()]. *)
Definition ReadScopeStatus `{Astronomy} (JD : double) (s : state) : bool * state :=
  let s := LOG DBG_SCOPE "Current RA: %s Current DEC: %s" s in
  let s := NewRaDec (currentRA s) (currentDEC s) s in
  let epochPos := (d_mul (currentRA s) (d_of_Z 15), currentDEC s) in
  let lnobserver := (lnobserver_lng s, LocationN_LATITUDE s) in
  let lnaltaz := ln_get_hrz_from_equ epochPos lnobserver JD in
  let az := range360 (d_add (fst lnaltaz) (d_of_Z 180)) in
  let al := snd lnaltaz in
  let s := set_HorizontalCoordsN az al s in
  let s := LOG DBG_DEBUG "AZ <%s> ALT <%s>; TrackState: %d" s in
  (true, s).

(** [dt = tv.tv_sec - ltv.tv_sec + (tv.tv_usec - ltv.tv_usec) / 1e6] after
    [if (ltv.tv_sec == 0 && ltv.tv_usec == 0) ltv = tv;]. *)
Definition elapsed (ltv tv : timeval) : double :=
  let ltv := if (tv_sec ltv =? 0) && (tv_usec ltv =? 0) then tv else ltv in
  d_add (d_of_Z (tv_sec tv - tv_sec ltv))
        (d_div (d_of_Z (tv_usec tv - tv_usec ltv)) (d_of_Z 1000000)).

(** The two tests of the slewing case: has the axis "locked"? *)
Definition ra_locked (da_ra : double) (s : state) : bool :=
  d_le (d_mul (fabs (d_sub (targetRA s) (currentRA s))) (d_of_Z 15)) da_ra.

Definition dec_locked (da_dec : double) (s : state) : bool :=
  d_le (fabs (d_sub (targetDEC s) (currentDEC s))) da_dec.

(** The [switch (TrackState)] of [TimerHit], given the per-tick steps. *)
Definition advance (da_ra da_dec : double) (s : state) : state :=
  match TrackState s with
  | SCOPE_SLEWING =>
      let nlocked := 0 in
      let dx := d_sub (targetRA s) (currentRA s) in
      let '(s, nlocked) :=
        if d_le (d_mul (fabs dx) (d_of_Z 15)) da_ra
        then (set_currentRA (targetRA s) s, nlocked + 1)
        else if d_gt dx (d_of_Z 0)
        then (set_currentRA (d_add (currentRA s) (d_div da_ra (d_of_Z 15))) s, nlocked)
        else (set_currentRA (d_sub (currentRA s) (d_div da_ra (d_of_Z 15))) s, nlocked) in
      let dy := d_sub (targetDEC s) (currentDEC s) in
      let '(s, nlocked) :=
        if d_le (fabs dy) da_dec
        then (set_currentDEC (targetDEC s) s, nlocked + 1)
        else if d_gt dy (d_of_Z 0)
        then (set_currentDEC (d_add (currentDEC s) da_dec) s, nlocked)
        else (set_currentDEC (d_sub (currentDEC s) da_dec) s, nlocked) in
      let s :=
        if nlocked =? 2
        then LOG DBG_SESSION "Telescope slew is complete. Tracking..."
               (set_TrackState SCOPE_TRACKING s)
        else s in
      let s := if negb (Slewing s) then LOG DBG_SESSION "Slewing started" s else s in
      set_statics true false s
  | SCOPE_TRACKING =>
      let s := if negb (Tracking s) then LOG DBG_SESSION "Tracking started" s else s in
      set_statics false true s
  | _ =>
      let s := if Slewing s then LOG DBG_SESSION "Slewing stopped" s else s in
      let s := if Tracking s then LOG DBG_SESSION "Tracking stopped" s else s in
      set_statics false false s
  end.

(** Modelled from the spec: [INDI::Telescope::TimerHit], the base class
    handler, which is not among the sources; each tick runs one status
    cycle ("this normally just calls ReadScopeStatus", says the driver). *)
Definition Telescope_TimerHit `{Astronomy} (JD : double) (s : state) : state :=
  snd (ReadScopeStatus JD s).

(** [void AltAzMountSimulator::TimerHit()] *)
Definition TimerHit `{Astronomy} (c : clock) (s : state) : state :=
  let tv := now c in
  let dt := elapsed (ltv s) tv in
  let s := set_ltv tv s in
  let da_ra := d_mul (d_of_Z SLEW_RATE) dt in
  let da_dec := d_mul (d_of_Z SLEW_RATE) dt in
  let s := Telescope_TimerHit (julian c) s in
  advance da_ra da_dec s.

(** The motion of the mount: the equatorial pair, the target and the Motion
    State. *)
Definition motion (s : state) : double * double * (double * double) * TelescopeStatus :=
  (currentRA s, currentDEC s, (targetRA s, targetDEC s), TrackState s).

(** The horizontal pair published by the last status cycle. *)
Definition HorizontalCoordsN (s : state) : double * double :=
  (HorizontalCoordsN_AZ s, HorizontalCoordsN_ALT s).

(** An [Astronomy] for concrete runs of the motion model, which never reads
    the horizontal pair back: libnova's answer is replaced by the equatorial
    pair itself and [range360] by the identity. *)
Definition no_sky : Astronomy :=
  {| ln_get_hrz_from_equ := fun equ _ _ => equ; range360 := fun r => r |}.

(** A run of timer ticks, first clock reading first. *)
Fixpoint ticks `{Astronomy} (cs : list clock) (s : state) : state :=
  match cs with
  | [] => s
  | c :: cs => ticks cs (TimerHit c s)
  end.

(** No tick of the run sees the wall clock behind the previous reading. *)
Fixpoint clock_forward (l : timeval) (cs : list clock) : Prop :=
  match cs with
  | [] => True
  | c :: cs => d_le (d_of_Z 0) (elapsed l (now c)) = true /\ clock_forward (now c) cs
  end.

(** *** Mounts and clock readings for concrete runs *)

(** One second apart. *)
Definition t0 : clock := {| now := {| tv_sec := 1000; tv_usec := 0 |}; julian := d_of_Z 2458000 |}.
Definition t1 : clock := {| now := {| tv_sec := 1001; tv_usec := 0 |}; julian := d_of_Z 2458000 |}.

(** The mount of the header's initialisers, at (0 h, 90 deg), sent to
    (5 h, 45 deg) and ticked once. *)
Definition slewing_mount : state :=
  @TimerHit no_sky t0 (snd (Goto (d_of_Z 5) (d_of_Z 45) (initial (d_of_Z 0) (d_of_Z 0)))).

Definition parked_mount : state :=
  set_TrackState SCOPE_PARKED (initial (d_of_Z 0) (d_of_Z 0)).

(** The mount sent to where it already is. *)
Definition arrived_mount : state :=
  snd (Goto (d_of_Z 0) (d_of_Z 90) (initial (d_of_Z 0) (d_of_Z 0))).

(** The mount sent along one axis only: the right ascension is on target
    from the start. *)
Definition declination_slew : state :=
  snd (Goto (d_of_Z 0) (d_of_Z 45) (initial (d_of_Z 0) (d_of_Z 0))).

End AltAzMountSimulator.

(* ================================================================== *)
(** ** The C library's formatted input and output, as far as the 10micron
     driver uses them *)
(* ================================================================== *)

Module CLib.
Import IEEE754.
Local Open Scope string_scope.
Local Open Scope Z_scope.

Definition code (c : ascii) : Z := Z.of_N (N_of_ascii c).

(** [isspace] in the C locale: space, and the controls 9 to 13. *)
Definition isspace (c : ascii) : bool :=
  (code c =? 32) || ((9 <=? code c) && (code c <=? 13)).

Definition isdigit (c : ascii) : bool := (48 <=? code c) && (code c <=? 57).

Definition digit_value (c : ascii) : Z := code c - 48.

Fixpoint skip_space (s : string) : string :=
  match s with
  | String c r => if isspace c then skip_space r else s
  | EmptyString => s
  end.

(** A maximal run of decimal digits: its value on top of [acc], how many
    digits were read on top of [n], and what follows. *)
Fixpoint digits (acc n : Z) (s : string) : Z * Z * string :=
  match s with
  | String c r =>
      if isdigit c then digits (10 * acc + digit_value c) (n + 1) r else (acc, n, s)
  | EmptyString => (acc, n, s)
  end.

(** An optional sign: true for [-]. *)
Definition sign (s : string) : bool * string :=
  match s with
  | String c r =>
      if Ascii.eqb c "-" then (true, r)
      else if Ascii.eqb c "+" then (false, r)
      else (false, s)
  | EmptyString => (false, s)
  end.

(** How the library matches a number at the head of the input (no leading
    white space): the value and the rest of the input, or no match. The
    driver is verified against every such matcher. *)
Class NumericInput : Type := {
  scan_float : string -> option (float * string);
  scan_int : string -> option (Z * string)
}.

(** The decimal integers of [%d]: an optional sign and at least one digit. *)
Definition decimal_int (s : string) : option (Z * string) :=
  let '(neg, r) := sign s in
  let '(v, n, r) := digits 0 0 r in
  if n =? 0 then None else Some (if neg then - v else v, r).

(** An exponent part, read only when it has a digit. *)
Definition exponent (s : string) : Z * string :=
  match s with
  | String c r =>
      if Ascii.eqb c "e" || Ascii.eqb c "E" then
        let '(neg, r1) := sign r in
        let '(v, n, r2) := digits 0 0 r1 in
        if n =? 0 then (0, s) else (if neg then - v else v, r2)
      else (0, s)
  | EmptyString => (0, s)
  end.

(** The decimal numerals of [%f] and [%g]: an optional sign, digits with an
    optional point among them (at least one digit), an optional exponent;
    the value is rounded once, to the nearest [float]. *)
Definition decimal_float (s : string) : option (float * string) :=
  let '(neg, r) := sign s in
  let '(ip, ni, r) := digits 0 0 r in
  let '(v, nf, r) :=
    match r with
    | String c r' => if Ascii.eqb c "." then digits ip 0 r' else (ip, 0, r)
    | EmptyString => (ip, 0, r)
    end in
  if ni + nf =? 0 then None
  else let '(ex, r) := exponent r in Some (f_of_decimal neg v (nf - ex), r).

(** The matcher for plain decimal input, which is what the mount sends. *)
Definition decimal_input : NumericInput :=
  {| scan_float := decimal_float; scan_int := decimal_int |}.

(** The directives of a [scanf] format: [%g], [%f] and [%e] convert a
    [float], [%c] a character, [%d] an [int]; any other character stands for
    itself. *)
Inductive directive : Type :=
| Conv_float
| Conv_char
| Conv_int
| Literal (c : ascii).

Fixpoint directives (fmt : string) : list directive :=
  match fmt with
  | String c EmptyString => [Literal c]
  | String c (String d r as r') =>
      if Ascii.eqb c "%" then
        (if Ascii.eqb d "g" || Ascii.eqb d "f" || Ascii.eqb d "e" then Conv_float
         else if Ascii.eqb d "c" then Conv_char
         else if Ascii.eqb d "d" then Conv_int
         else Literal d) :: directives r
      else Literal c :: directives r'
  | EmptyString => []
  end.

(** A converted and assigned argument. *)
Inductive arg : Type :=
| Arg_float (f : float)
| Arg_char (c : ascii)
| Arg_int (z : Z).

(** The arguments assigned, in order, and whether the scan stopped because
    the input ran out (an input failure) rather than on a mismatch. *)
Fixpoint scan `{NumericInput} (ds : list directive) (input : string) : list arg * bool :=
  match ds with
  | [] => ([], false)
  | Conv_float :: ds' =>
      match skip_space input with
      | EmptyString => ([], true)
      | input' =>
          match scan_float input' with
          | Some (f, rest) => let '(args, eof) := scan ds' rest in (Arg_float f :: args, eof)
          | None => ([], false)
          end
      end
  | Conv_int :: ds' =>
      match skip_space input with
      | EmptyString => ([], true)
      | input' =>
          match scan_int input' with
          | Some (z, rest) => let '(args, eof) := scan ds' rest in (Arg_int z :: args, eof)
          | None => ([], false)
          end
      end
  | Conv_char :: ds' =>
      match input with
      | EmptyString => ([], true)
      | String c rest => let '(args, eof) := scan ds' rest in (Arg_char c :: args, eof)
      end
  | Literal c :: ds' =>
      match input with
      | EmptyString => ([], true)
      | String c' rest => if Ascii.eqb c c' then scan ds' rest else ([], false)
      end
  end.

Definition EOF : Z := -1.

(** [sscanf(input, fmt, ...)]: the return value and the assigned arguments.
    The return value is [EOF] when the input runs out before the first
    conversion, and the number of assigned arguments otherwise. *)
Definition sscanf `{NumericInput} (input fmt : string) : Z * list arg :=
  let '(args, eof) := scan (directives fmt) input in
  (if eof && (Z.of_nat (List.length args) =? 0) then EOF else Z.of_nat (List.length args),
   args).

(** The variable behind the [i]-th pointer argument after the call: the
    assigned value, or what the variable held before. *)
Definition float_arg (args : list arg) (i : nat) (before : float) : float :=
  match nth_error args i with Some (Arg_float f) => f | _ => before end.

Definition char_arg (args : list arg) (i : nat) (before : ascii) : ascii :=
  match nth_error args i with Some (Arg_char c) => c | _ => before end.

Definition int_arg (args : list arg) (i : nat) (before : Z) : Z :=
  match nth_error args i with Some (Arg_int z) => z | _ => before end.

(** [strchr(data, stop)] followed by [*(term + 1) = 0]: the text up to and
    including the first [stop], or nothing when there is none. *)
Fixpoint terminate_after (stop : ascii) (data : string) : option string :=
  match data with
  | EmptyString => None
  | String c r =>
      if Ascii.eqb c stop then Some (String c EmptyString)
      else option_map (String c) (terminate_after stop r)
  end.

(** The decimal digits of a non-negative integer. *)
Definition decimal (z : Z) : string :=
  DecimalString.NilZero.string_of_uint (N.to_uint (Z.to_N z)).

Fixpoint zeros (n : nat) : string :=
  match n with O => EmptyString | S n => String "0" (zeros n) end.

(** The magnitude of a finite [double] in tenths, rounded to the nearest
    integer, ties to even, from the exact binary value [m * 2^e]: for a
    negative [e], the quotient of [10 * m] by [2^(-e)] (a shift), moved up
    when the remainder is above half of the divisor, or is half of it and
    the quotient is odd. *)
Definition tenths (x : double) : Z :=
  match x with
  | S754_finite _ m e =>
      if 0 <=? e then Z.shiftl (Zpos m * 10) e
      else
        let N := Zpos m * 10 in
        let q := Z.shiftr N (- e) in
        let r := N - Z.shiftl q (- e) in
        match 2 * r ?= Z.shiftl 1 (- e) with
        | Lt => q
        | Gt => q + 1
        | Eq => if Z.even q then q else q + 1
        end
  | _ => 0
  end.

(** The conversion [%0+6.1f] of [printf]: a sign always, one digit after the
    point, zeros after the sign up to a width of six. Infinities and NaN
    print as words, padded with spaces; a NaN carries no sign here and
    prints with [+]. *)
Definition printf_0plus6_1f (x : double) : string :=
  match x with
  | S754_nan => "  +nan"
  | S754_infinity s => if s then "  -inf" else "  +inf"
  | S754_zero s | S754_finite s _ _ =>
      let t := tenths x in
      let body := decimal (t / 10) ++ "." ++ decimal (t mod 10) in
      String (if s then "-" else "+")%char (zeros (6 - 1 - String.length body) ++ body)
  end.

(** [snprintf(buf, size, ...)]: at most [size - 1] characters are stored. *)
Definition snprintf (size : nat) (text : string) : string :=
  substring 0 (size - 1) text.

End CLib.

(* ================================================================== *)
(** ** libindi/drivers/telescope/lx200_10micron.cpp *)
(* ================================================================== *)

Module LX200_10MICRON.
Import IEEE754 INDI CLib.
Local Open Scope string_scope.
Local Open Scope Z_scope.

(** The enumerators of [LX200_10MICRON_GSTAT] that [ReadScopeStatus] names.
    They are declared in lx200_10micron.h, which is not among the sources:
    the driver is verified for every numbering. *)
Class GSTAT : Type := {
  GSTAT_TRACKING : Z;
  GSTAT_STOPPED : Z;
  GSTAT_PARKING : Z;
  GSTAT_UNPARKING : Z;
  GSTAT_SLEWING_TO_HOME : Z;
  GSTAT_PARKED : Z;
  GSTAT_SLEWING_OR_STOPPING : Z;
  GSTAT_NOT_TRACKING_AND_NOT_MOVING : Z;
  GSTAT_MOTORS_TOO_COLD : Z;
  GSTAT_TRACKING_OUTSIDE_LIMITS : Z;
  GSTAT_FOLLOWING_SATELLITE : Z;
  GSTAT_NEED_USEROK : Z;
  GSTAT_UNKNOWN_STATUS : Z;
  GSTAT_ERROR : Z
}.

(** The numbering of the mount's command protocol (the answers to [:Gstat#]),
    for concrete runs. *)
Definition protocol_GSTAT : GSTAT :=
  {| GSTAT_TRACKING := 0;
     GSTAT_STOPPED := 1;
     GSTAT_PARKING := 2;
     GSTAT_UNPARKING := 3;
     GSTAT_SLEWING_TO_HOME := 4;
     GSTAT_PARKED := 5;
     GSTAT_SLEWING_OR_STOPPING := 6;
     GSTAT_NOT_TRACKING_AND_NOT_MOVING := 7;
     GSTAT_MOTORS_TOO_COLD := 8;
     GSTAT_TRACKING_OUTSIDE_LIMITS := 9;
     GSTAT_FOLLOWING_SATELLITE := 10;
     GSTAT_NEED_USEROK := 11;
     GSTAT_UNKNOWN_STATUS := 98;
     GSTAT_ERROR := 99 |}.

(** The case labels of the [switch (Gstat)], in its order. *)
Definition known_codes `{GSTAT} : list Z :=
  [ GSTAT_TRACKING; GSTAT_STOPPED; GSTAT_PARKING; GSTAT_UNPARKING;
    GSTAT_SLEWING_TO_HOME; GSTAT_PARKED; GSTAT_SLEWING_OR_STOPPING;
    GSTAT_NOT_TRACKING_AND_NOT_MOVING; GSTAT_MOTORS_TOO_COLD;
    GSTAT_TRACKING_OUTSIDE_LIMITS; GSTAT_FOLLOWING_SATELLITE;
    GSTAT_NEED_USEROK; GSTAT_UNKNOWN_STATUS; GSTAT_ERROR ].

(** The return codes of indicom's tty functions: the driver only asks whether
    a code is [TTY_OK]. *)
Inductive TTY_ERROR : Type :=
| TTY_OK
| TTY_failure (code : Z).

Definition is_TTY_OK (e : TTY_ERROR) : bool :=
  match e with TTY_OK => true | TTY_failure _ => false end.

(** What the serial line does during one status poll: the result of
    [tty_write_string], the result of [tty_read_section] and the text it left
    in [data]. *)
Record exchange : Type := {
  write_result : TTY_ERROR;
  read_result : TTY_ERROR;
  data : string
}.

(** The fields of the driver and of its base classes that the status poll and
    the refraction commands read or write. [EqN] is the equatorial pair last
    handed to [NewRaDec]; [Parked] is what [isParked()] answers. *)
Record state : Type := {
  TrackState : TelescopeStatus;
  EqN : double * double;
  OldGstat : Z;
  Parked : bool;
  Connected : bool;
  Simulation : bool;
  RefractionModelTemperatureN_value : double;
  log : list log_line
}.

Definition LOG (l : log_level) (msg : string) (s : state) : state :=
  {| TrackState := TrackState s; EqN := EqN s; OldGstat := OldGstat s;
     Parked := Parked s; Connected := Connected s; Simulation := Simulation s;
     RefractionModelTemperatureN_value := RefractionModelTemperatureN_value s;
     log := log s ++ [(l, msg)] |}.

Definition set_TrackState (t : TelescopeStatus) (s : state) : state :=
  {| TrackState := t; EqN := EqN s; OldGstat := OldGstat s;
     Parked := Parked s; Connected := Connected s; Simulation := Simulation s;
     RefractionModelTemperatureN_value := RefractionModelTemperatureN_value s;
     log := log s |}.

Definition set_OldGstat (g : Z) (s : state) : state :=
  {| TrackState := TrackState s; EqN := EqN s; OldGstat := g;
     Parked := Parked s; Connected := Connected s; Simulation := Simulation s;
     RefractionModelTemperatureN_value := RefractionModelTemperatureN_value s;
     log := log s |}.

Definition set_RefractionModelTemperature (t : double) (s : state) : state :=
  {| TrackState := TrackState s; EqN := EqN s; OldGstat := OldGstat s;
     Parked := Parked s; Connected := Connected s; Simulation := Simulation s;
     RefractionModelTemperatureN_value := t;
     log := log s |}.

(** Modelled from the spec: [INDI::Telescope::NewRaDec], the upward report
    of the equatorial pair ([reportEquatorial(ra, dec)]); the base class is
    not among the sources. *)
Definition NewRaDec (ra dec : double) (s : state) : state :=
  {| TrackState := TrackState s; EqN := (ra, dec); OldGstat := OldGstat s;
     Parked := Parked s; Connected := Connected s; Simulation := Simulation s;
     RefractionModelTemperatureN_value := RefractionModelTemperatureN_value s;
     log := log s |}.

(** Modelled from the spec: [INDI::Telescope::SetParked], which records the
    parked flag ("device-reported parked status"); the base class is not
    among the sources. *)
Definition SetParked (p : bool) (s : state) : state :=
  {| TrackState := TrackState s; EqN := EqN s; OldGstat := OldGstat s;
     Parked := p; Connected := Connected s; Simulation := Simulation s;
     RefractionModelTemperatureN_value := RefractionModelTemperatureN_value s;
     log := log s |}.

(** The simulated mount of the generic LX200 driver, which the status poll
    calls in simulation mode. *)
Class LX200Generic : Type := { mountSim : state -> state }.

(** What the poll is about: the Motion State and the reported coordinates,
    with the bookkeeping beside them. *)
Definition motion (s : state) : TelescopeStatus * (double * double) * Z * bool :=
  (TrackState s, EqN s, OldGstat s, Parked s).

(** The [switch (Gstat)]: the state a case assigns to [TrackState], or
    nothing for the [default:]. Only [case GSTAT_PARKED:] assigns
    [SCOPE_PARKED]; it goes on to [if (!isParked()) SetParked(true);]. *)
Definition TrackState_of_Gstat `{GSTAT} (Gstat : Z) : option TelescopeStatus :=
  if Gstat =? GSTAT_TRACKING then Some SCOPE_TRACKING
  else if Gstat =? GSTAT_STOPPED then Some SCOPE_IDLE
  else if Gstat =? GSTAT_PARKING then Some SCOPE_PARKING
  else if Gstat =? GSTAT_UNPARKING then Some SCOPE_TRACKING
  else if Gstat =? GSTAT_SLEWING_TO_HOME then Some SCOPE_SLEWING
  else if Gstat =? GSTAT_PARKED then Some SCOPE_PARKED
  else if Gstat =? GSTAT_SLEWING_OR_STOPPING then Some SCOPE_SLEWING
  else if Gstat =? GSTAT_NOT_TRACKING_AND_NOT_MOVING then Some SCOPE_IDLE
  else if Gstat =? GSTAT_MOTORS_TOO_COLD then Some SCOPE_IDLE
  else if Gstat =? GSTAT_TRACKING_OUTSIDE_LIMITS then Some SCOPE_TRACKING
  else if Gstat =? GSTAT_FOLLOWING_SATELLITE then Some SCOPE_TRACKING
  else if Gstat =? GSTAT_NEED_USEROK then Some SCOPE_IDLE
  else if Gstat =? GSTAT_UNKNOWN_STATUS then Some SCOPE_IDLE
  else if Gstat =? GSTAT_ERROR then Some SCOPE_IDLE
  else None.

(** The locals of [ReadScopeStatus] after the [sscanf]: the initialisers,
    overwritten by what was assigned. *)
Record Ginfo : Type := {
  nbytes_read : Z;
  RA_JNOW : float;
  DEC_JNOW : float;
  SideOfPier : ascii;
  AZ : float;
  ALT : float;
  Jdate : float;
  Gstat : Z;
  SlewStatus : Z
}.

Definition parse_Ginfo `{NumericInput} (data : string) : Ginfo :=
  let '(n, args) := sscanf data "%g,%g,%c,%g,%g,%g,%d,%d#" in
  {| nbytes_read := n;
     RA_JNOW := float_arg args 0 (f_of_Z 0);
     DEC_JNOW := float_arg args 1 (f_of_Z 0);
     SideOfPier := char_arg args 2 "x";
     AZ := float_arg args 3 (f_of_Z 0);
     ALT := float_arg args 4 (f_of_Z 0);
     Jdate := float_arg args 5 (f_of_Z 0);
     Gstat := int_arg args 6 (-1);
     SlewStatus := int_arg args 7 (-1) |}.

(** [bool LX200_10MICRON::ReadScopeStatus()] *)
Definition ReadScopeStatus `{GSTAT} `{NumericInput} `{LX200Generic}
    (io : exchange) (s : state) : bool * state :=
  if negb (Connected s) then (false, s)
  else if Simulation s then (true, mountSim s)
  else if negb (is_TTY_OK (write_result io)) then (false, s)
  else if negb (is_TTY_OK (read_result io)) then (false, s)
  else
    match terminate_after "#" (data io) with
    | None => (false, s)
    | Some data =>
        let s := LOG DBG_SCOPE "CMD <%s> RES <%s>" s in
        let r := parse_Ginfo data in
        if nbytes_read r <? 0 then (false, s)
        else
          let s :=
            if negb (Gstat r =? OldGstat s) && negb (OldGstat s =? -1)
            then LOG DBG_SESSION "Gstat changed from %d to %d" s
            else s in
          match TrackState_of_Gstat (Gstat r) with
          | None => (false, s)
          | Some t =>
              let s := set_TrackState t s in
              let s :=
                if TelescopeStatus_eqb t SCOPE_PARKED && negb (Parked s)
                then SetParked true s else s in
              let s := set_OldGstat (Gstat r) s in
              let s := NewRaDec (double_of_float (RA_JNOW r))
                                (double_of_float (DEC_JNOW r)) s in
              (true, s)
          end
    end.

(** The command text of [SetRefractionModelTemperature]:
    [snprintf(data, 16, "#:SRTMP%0+6.1f#", temperature)]. *)
Definition SRTMP (temperature : double) : string :=
  snprintf 16 ("#:SRTMP" ++ printf_0plus6_1f temperature ++ "#").

(** [int LX200_10MICRON::SetRefractionModelTemperature(double)], given the
    generic driver's [setStandardProcedure] on the open port. *)
Definition SetRefractionModelTemperature (setStandardProcedure : string -> Z)
    (temperature : double) : Z :=
  setStandardProcedure (SRTMP temperature).

(** The refraction temperature of [getBasicData], given the text that
    [getCommandString(PortFD, ..., "#:GRTMP#")] left in the buffer and what
    the local [rmtemp] held before the [sscanf]. *)
Definition read_rmtemp `{NumericInput} (RefractionModelTemperature : string)
    (rmtemp : float) : float :=
  float_arg (snd (sscanf RefractionModelTemperature "%f#")) 0 rmtemp.

Definition getBasicData_temperature `{NumericInput}
    (RefractionModelTemperature : string) (rmtemp : float) (s : state) : state :=
  let rmtemp := read_rmtemp RefractionModelTemperature rmtemp in
  let s := set_RefractionModelTemperature (double_of_float rmtemp) s in
  LOG DBG_SESSION "RefractionModelTemperature read to be %0+6.1f degrees C" s.

(** The temperature [k / 10] of the number property's 0.1 grid, as the
    [double] nearest to it. *)
Definition temperature_of_tenths (k : Z) : double :=
  d_of_decimal (k <? 0) (Z.abs k) 1.

(** The six characters [%0+6.1f] is to print for [k / 10], [|k| <= 9999]. *)
Definition field_of_tenths (k : Z) : string :=
  let a := Z.abs k in
  (if k <? 0 then "-" else "+") ++
  decimal (a / 1000) ++ decimal (a / 100 mod 10) ++ decimal (a / 10 mod 10) ++
  "." ++ decimal (a mod 10).

(** *** A mount and a line for concrete runs *)

(** A connected mount, not in simulation, idle at (0, 0), before its first
    poll. *)
Definition idle_mount : state :=
  {| TrackState := SCOPE_IDLE; EqN := (d_of_Z 0, d_of_Z 0); OldGstat := -1;
     Parked := false; Connected := true; Simulation := false;
     RefractionModelTemperatureN_value := d_of_Z 0; log := [] |}.

Definition no_simulator : LX200Generic := {| mountSim := fun s => s |}.

(** A reply read from a working line. *)
Definition received (text : string) : exchange :=
  {| write_result := TTY_OK; read_result := TTY_OK; data := text |}.

(** The round trip of one grid temperature, checked by running the driver:
    the numeric field printed for it, the [float] read back from the field,
    the field printed again from the [double] stored in the property, and
    whether that [double] is the one that was sent. *)
Definition roundtrip_check (k : Z) : bool :=
  let t := temperature_of_tenths k in
  let F := printf_0plus6_1f t in
  String.eqb F (field_of_tenths k) &&
  Nat.eqb (String.length F) 6 &&
  match @sscanf decimal_input F "%f#" with
  | (1, [Arg_float f]) =>
      let d := double_of_float f in
      String.eqb (printf_0plus6_1f d) F &&
      Bool.eqb (same_float d t) (k mod 5 =? 0)
  | _ => false
  end.

(** The grid from [lo] on, [n] temperatures long. *)
Fixpoint grid (lo : Z) (n : nat) : list Z :=
  match n with
  | O => []
  | S n => lo :: grid (lo + 1) n
  end.

End LX200_10MICRON.

(* ================================================================== *)
(** ** Sequences of calls into the simulated mount *)
(* ================================================================== *)

Module AltAzMountSession.
Import IEEE754 INDI AltAzMountSimulator.

(** One call of a handler of the driver: a command of the client, or the
    timer. *)
Inductive call : Type :=
| call_Goto (ra dec : double)
| call_MoveNS
| call_MoveWE
| call_Abort
| call_TimerHit (c : clock).

(** The state the call leaves behind. *)
Definition after `{Astronomy} (k : call) (s : state) : state :=
  match k with
  | call_Goto ra dec => snd (Goto ra dec s)
  | call_MoveNS => snd (MoveNS s)
  | call_MoveWE => snd (MoveWE s)
  | call_Abort => snd (Abort s)
  | call_TimerHit c => TimerHit c s
  end.

(** A session: the calls in the order they are made. *)
Fixpoint session `{Astronomy} (ks : list call) (s : state) : state :=
  match ks with
  | [] => s
  | k :: ks => session ks (after k s)
  end.

(** The arguments of the last [Goto] of a session, or [before] when it has
    none. *)
Fixpoint last_Goto (ks : list call) (before : double * double) : double * double :=
  match ks with
  | [] => before
  | call_Goto ra dec :: ks => last_Goto ks (ra, dec)
  | _ :: ks => last_Goto ks before
  end.

Definition is_Goto (k : call) : bool :=
  match k with call_Goto _ _ => true | _ => false end.

Definition is_TimerHit (k : call) : bool :=
  match k with call_TimerHit _ => true | _ => false end.

End AltAzMountSession.

(* ================================================================== *)
(** ** More of the C library: words, bounded integers, padded integers and
       comparison without case *)
(* ================================================================== *)

Module CLibText.
Import IEEE754 CLib.
Local Open Scope string_scope.
Local Open Scope Z_scope.

(** [tolower] in the C locale. *)
Definition tolower (c : ascii) : ascii :=
  if (65 <=? code c) && (code c <=? 90) then ascii_of_N (N_of_ascii c + 32) else c.

(** [strcasecmp(a, b) == 0]: the two strings are the same once every
    character is lowered. *)
Fixpoint strcasecmp_eq (a b : string) : bool :=
  match a, b with
  | EmptyString, EmptyString => true
  | String x a', String y b' => Ascii.eqb (tolower x) (tolower y) && strcasecmp_eq a' b'
  | _, _ => false
  end.

(** The conversion [%s] of [scanf] after its white space: the longest run of
    characters that are not white space, and what follows. *)
Fixpoint word (s : string) : string * string :=
  match s with
  | String c r =>
      if isspace c then (EmptyString, s)
      else let '(w, rest) := word r in (String c w, rest)
  | EmptyString => (EmptyString, s)
  end.

(** At most [width] decimal digits. *)
Fixpoint digits_width (width : nat) (acc n : Z) (s : string) : Z * Z * string :=
  match width with
  | O => (acc, n, s)
  | S width' =>
      match s with
      | String c r =>
          if isdigit c then digits_width width' (10 * acc + digit_value c) (n + 1) r
          else (acc, n, s)
      | EmptyString => (acc, n, s)
      end
  end.

(** The conversion [%Nd] of [scanf] after its white space: a decimal integer
    of at most [width] characters, its sign counted among them. *)
Definition decimal_int_width (width : nat) (s : string) : option (Z * string) :=
  match s with
  | String c r =>
      if Ascii.eqb c "-" || Ascii.eqb c "+" then
        let '(v, n, rest) := digits_width (width - 1) 0 0 r in
        if n =? 0 then None else Some (if Ascii.eqb c "-" then - v else v, rest)
      else
        let '(v, n, rest) := digits_width width 0 0 s in
        if n =? 0 then None else Some (v, rest)
  | EmptyString => None
  end.

(** The conversion [%0Nd] of [printf]: the decimal digits, with zeros before
    them (after the sign of a negative number) up to [width] characters. *)
Definition printf_0Nd (width : nat) (z : Z) : string :=
  let body := decimal (Z.abs z) in
  if z <? 0
  then String "-" (zeros (width - 1 - String.length body) ++ body)
  else zeros (width - String.length body) ++ body.

(** The character of a decimal digit. *)
Definition digit_char (v : Z) : ascii := ascii_of_N (Z.to_N (48 + v)).

(** Two and four decimal digits. *)
Definition two_digits (v : Z) : string :=
  String (digit_char (v / 10)) (String (digit_char (v mod 10)) EmptyString).

Definition four_digits (v : Z) : string :=
  String (digit_char (v / 1000))
    (String (digit_char (v / 100 mod 10))
       (String (digit_char (v / 10 mod 10))
          (String (digit_char (v mod 10)) EmptyString))).

(** The conversion [%06.1f] of [printf]: one digit after the point, a sign
    only for a negative number, zeros after it up to a width of six.
    Infinities and NaN print as words, padded with spaces. *)
Definition printf_06_1f (x : double) : string :=
  match x with
  | S754_nan => "   nan"
  | S754_infinity s => if s then "  -inf" else "   inf"
  | S754_zero s | S754_finite s _ _ =>
      let t := tenths x in
      let body := decimal (t / 10) ++ "." ++ decimal (t mod 10) in
      if s then String "-" (zeros (6 - 1 - String.length body) ++ body)
      else zeros (6 - String.length body) ++ body
  end.

End CLibText.

(* ================================================================== *)
(** ** lx200_10micron.cpp: product information and refraction pressure *)
(* ================================================================== *)

Module LX200_10MICRON_Info.
Import IEEE754 INDI CLib CLibText LX200_10MICRON.
Local Open Scope string_scope.
Local Open Scope Z_scope.

(** [month_table] of [monthToNumber], without its closing sentinel. *)
Definition month_table : list (string * Z) :=
  [ ("Jan", 1); ("Feb", 2); ("Mar", 3); ("Apr", 4); ("May", 5); ("Jun", 6);
    ("Jul", 7); ("Aug", 8); ("Sep", 9); ("Oct", 10); ("Nov", 11); ("Dec", 12) ].

(** The loop of [monthToNumber] from entry [p] on. *)
Fixpoint month_lookup (p : list (string * Z)) (monthName : string) : Z :=
  match p with
  | [] => 0
  | (name, id) :: p' =>
      if strcasecmp_eq name monthName then id else month_lookup p' monthName
  end.

(** [int LX200_10MICRON::monthToNumber(const char *monthName)] *)
Definition monthToNumber (monthName : string) : Z :=
  month_lookup month_table monthName.

(** No character of the text is white space. *)
Fixpoint no_space (s : string) : bool :=
  match s with
  | String c r => negb (isspace c) && no_space r
  | EmptyString => true
  end.

(** The locals [mon], [dd] and [yyyy] of [getMountInfo] after
    [sscanf(FirmwareDate1, "%s %02d %04d", mon, &dd, &yyyy)], given what they
    held before. [mon] has room for three characters: a longer first word
    runs over it, and the model gives no answer then. *)
Definition scan_FirmwareDate1 (FirmwareDate1 : string) (mon0 : string) (dd0 yyyy0 : Z)
  : option (string * Z * Z) :=
  match skip_space FirmwareDate1 with
  | EmptyString => Some (mon0, dd0, yyyy0)
  | input =>
      let '(mon, rest) := word input in
      if (3 <? String.length mon)%nat then None
      else
        match decimal_int_width 2 (skip_space rest) with
        | None => Some (mon, dd0, yyyy0)
        | Some (dd, rest) =>
            match decimal_int_width 4 (skip_space rest) with
            | None => Some (mon, dd, yyyy0)
            | Some (yyyy, _) => Some (mon, dd, yyyy)
            end
        end
  end.

(** The text [FirmwareDate] of [getMountInfo]:
    [snprintf(FirmwareDate, 80, "%04d-%02d-%02dT%s", yyyy, monthToNumber(mon),
     dd, FirmwareDate2)], from the answers to [#:GVD#] and [#:GVT#]. *)
Definition FirmwareDate (FirmwareDate1 FirmwareDate2 : string)
    (mon0 : string) (dd0 yyyy0 : Z) : option string :=
  match scan_FirmwareDate1 FirmwareDate1 mon0 dd0 yyyy0 with
  | None => None
  | Some (mon, dd, yyyy) =>
      Some (snprintf 80
              (printf_0Nd 4 yyyy ++ "-" ++ printf_0Nd 2 (monthToNumber mon) ++ "-" ++
               printf_0Nd 2 dd ++ "T" ++ FirmwareDate2))
  end.

(** The command text of [SetRefractionModelPressure]:
    [snprintf(data, 16, "#:SRPRS%06.1f#", pressure)]. *)
Definition SRPRS (pressure : double) : string :=
  snprintf 16 ("#:SRPRS" ++ printf_06_1f pressure ++ "#").

(** [int LX200_10MICRON::SetRefractionModelPressure(double)], given the
    generic driver's [setStandardProcedure] on the open port. *)
Definition SetRefractionModelPressure (setStandardProcedure : string -> Z)
    (pressure : double) : Z :=
  setStandardProcedure (SRPRS pressure).

(** The refraction pressure of [getBasicData]: the text that
    [getCommandString(PortFD, ..., "#:GRPRS#")] left in the buffer, read with
    [sscanf(..., "%f#", &rmpres)] and widened; [rmpres] is what the local held
    before. *)
Definition read_rmpres `{NumericInput} (RefractionModelPressure : string)
    (rmpres : float) : double :=
  double_of_float (float_arg (snd (sscanf RefractionModelPressure "%f#")) 0 rmpres).

(** The pressure [k / 10] of the number property's 0.1 grid, as the [double]
    nearest to it, and the six characters [%06.1f] is to print for it,
    [0 <= k <= 99999]. *)
Definition pressure_of_tenths (k : Z) : double := d_of_decimal false k 1.

Definition pressure_field (k : Z) : string :=
  four_digits (k / 10) ++ "." ++ String (digit_char (k mod 10)) EmptyString.

(** The round trip of one grid pressure, checked by running the driver. *)
Definition pressure_roundtrip_check (k : Z) : bool :=
  let p := pressure_of_tenths k in
  let F := printf_06_1f p in
  String.eqb F (pressure_field k) &&
  match @sscanf decimal_input F "%f#" with
  | (1, [Arg_float f]) =>
      String.eqb (printf_06_1f (double_of_float f)) F
  | _ => false
  end.

(** A reply that reports a parked mount, for concrete runs. *)
Definition parked_reply : string := "1.5,2.5,E,3.0,4.0,5.0,5,0#".

End LX200_10MICRON_Info.

(* ================================================================== *)
(** * Properties *)
(* ================================================================== *)

(** ** IEEE 754 facts *)

Section FloatFacts.
Import IEEE754.
Variables prec emax : Z.

Lemma shr_1_nonneg (mrs : shr_record) : 0 <= shr_m mrs -> 0 <= shr_m (shr_1 mrs).
Proof.
  destruct mrs as [m r s]; simpl.
  destruct m as [|p|p]; [ | destruct p | ]; simpl; lia.
Qed.

Lemma iter_pos_shr_1_nonneg (p : positive) :
  forall mrs, 0 <= shr_m mrs -> 0 <= shr_m (iter_pos shr_1 p mrs).
Proof.
  induction p as [p IH|p IH|]; simpl; intros mrs Hm.
  - apply IH, IH, shr_1_nonneg, Hm.
  - apply IH, IH, Hm.
  - apply shr_1_nonneg, Hm.
Qed.

Lemma shr_nonneg mrs e n : 0 <= shr_m mrs -> 0 <= shr_m (fst (shr mrs e n)).
Proof.
  intros Hm. destruct n; simpl; auto using iter_pos_shr_1_nonneg.
Qed.

Lemma shr_record_of_loc_m m l : shr_m (shr_record_of_loc m l) = m.
Proof. destruct l as [|[]]; reflexivity. Qed.

Lemma shr_fexp_nonneg m e l : 0 <= m -> 0 <= shr_m (fst (shr_fexp prec emax m e l)).
Proof.
  intros Hm. unfold shr_fexp. apply shr_nonneg.
  rewrite shr_record_of_loc_m. exact Hm.
Qed.

Lemma round_nearest_even_nonneg m l : 0 <= m -> 0 <= round_nearest_even m l.
Proof.
  intros Hm. destruct l as [|[]]; simpl; try lia.
  destruct (Z.even m); lia.
Qed.

(** Rounding a non-negative mantissa never produces a NaN and keeps the sign. *)
Lemma binary_round_aux_sign sx mx ex lx :
  0 <= mx -> has_sign sx (binary_round_aux prec emax sx mx ex lx).
Proof.
  intros Hm. unfold binary_round_aux.
  pose proof (shr_fexp_nonneg mx ex lx Hm) as H1.
  destruct (shr_fexp prec emax mx ex lx) as [mrs' e']. simpl in H1.
  pose proof (shr_fexp_nonneg
                (round_nearest_even (shr_m mrs') (loc_of_shr_record mrs')) e' loc_Exact
                (round_nearest_even_nonneg _ _ H1)) as H2.
  destruct (shr_fexp prec emax _ e' loc_Exact) as [mrs'' e'']. simpl in H2.
  destruct (shr_m mrs'') as [|m|m]; simpl; auto; try lia.
  destruct (e'' <=? emax - prec); reflexivity.
Qed.
End FloatFacts.

Section DoubleFacts.
Import IEEE754.

Lemma d_sub_diag (x : double) : is_finite x = true -> d_sub x x = S754_zero false.
Proof.
  destruct x as [s|s| |s m e]; simpl; try discriminate; intros _.
  - destruct s; reflexivity.
  - unfold d_sub, SFsub. rewrite Z.min_id. unfold shl_align.
    rewrite !Z.sub_diag. reflexivity.
Qed.

Lemma d_le_zero_of_sign (x : double) : has_sign false x -> d_le (S754_zero false) x = true.
Proof. destruct x as [s|s| |s m e]; simpl; intros H; subst; try reflexivity; contradiction. Qed.

Lemma d_le_zero_has_sign_or_zero (x : double) :
  d_le (d_of_Z 0) x = true -> has_sign false x \/ x = S754_zero true.
Proof.
  destruct x as [s|s| |s m e]; simpl; try discriminate.
  - destruct s; auto.
  - destruct s; auto; discriminate.
  - destruct s; auto; discriminate.
Qed.

(** The per-tick step is non-negative when the elapsed time is. *)
Lemma step_nonneg (dt : double) :
  d_le (d_of_Z 0) dt = true -> d_le (S754_zero false) (d_mul (d_of_Z 3) dt) = true.
Proof.
  intros H. destruct (d_le_zero_has_sign_or_zero dt H) as [Hs| ->]; [|reflexivity].
  destruct dt as [s|s| |s m e]; simpl in Hs; subst; try reflexivity; try contradiction.
  apply d_le_zero_of_sign.
  change (d_of_Z 3) with (S754_finite false 6755399441055744 (-51)).
  unfold d_mul, SFmul. apply binary_round_aux_sign. simpl. lia.
Qed.
End DoubleFacts.

(** ** The simulated mount *)

Section SimulatorFacts.
Import IEEE754 INDI AltAzMountSimulator.
Context `{Astronomy}.

(** [ReadScopeStatus] only publishes: it reports success and leaves the
    equatorial pair, the target, the state and the statics alone. *)
Lemma ReadScopeStatus_preserves (JD : double) (s : state) :
  let s' := snd (ReadScopeStatus JD s) in
  fst (ReadScopeStatus JD s) = true /\
  currentRA s' = currentRA s /\ currentDEC s' = currentDEC s /\
  targetRA s' = targetRA s /\ targetDEC s' = targetDEC s /\
  TrackState s' = TrackState s /\ ltv s' = ltv s /\
  Slewing s' = Slewing s /\ Tracking s' = Tracking s.
Proof. repeat split. Qed.

Lemma advance_ltv (da_ra da_dec : double) (s : state) :
  ltv (advance da_ra da_dec s) = ltv s.
Proof.
  unfold advance. destruct (TrackState s);
    repeat match goal with
           | |- context [if ?b then _ else _] => destruct b
           end; reflexivity.
Qed.

Lemma TimerHit_ltv (c : clock) (s : state) : ltv (TimerHit c s) = now c.
Proof. unfold TimerHit. rewrite advance_ltv. reflexivity. Qed.

(** The next value of each axis in the slewing case, as [TimerHit] computes it. *)
Lemma advance_slewing (da_ra da_dec : double) (s : state) :
  TrackState s = SCOPE_SLEWING ->
  let dx := d_sub (targetRA s) (currentRA s) in
  let dy := d_sub (targetDEC s) (currentDEC s) in
  let s' := advance da_ra da_dec s in
  currentRA s' =
    (if d_le (d_mul (fabs dx) (d_of_Z 15)) da_ra then targetRA s
     else if d_gt dx (d_of_Z 0) then d_add (currentRA s) (d_div da_ra (d_of_Z 15))
     else d_sub (currentRA s) (d_div da_ra (d_of_Z 15))) /\
  currentDEC s' =
    (if d_le (fabs dy) da_dec then targetDEC s
     else if d_gt dy (d_of_Z 0) then d_add (currentDEC s) da_dec
     else d_sub (currentDEC s) da_dec) /\
  targetRA s' = targetRA s /\ targetDEC s' = targetDEC s /\
  TrackState s' =
    (if ra_locked da_ra s && dec_locked da_dec s then SCOPE_TRACKING else SCOPE_SLEWING).
Proof.
  intros Hs dx dy s'. subst s'. unfold advance, ra_locked, dec_locked. rewrite Hs.
  fold dx. fold dy.
  destruct (d_le (d_mul (fabs dx) (d_of_Z 15)) da_ra);
    [ | destruct (d_gt dx (d_of_Z 0)) ];
    cbn [set_currentRA currentDEC targetDEC currentRA targetRA]; fold dy;
    (destruct (d_le (fabs dy) da_dec); [ | destruct (d_gt dy (d_of_Z 0)) ]);
    cbn [Z.add Z.eqb Pos.add Pos.eqb Pos.succ andb];
    destruct (Slewing s) eqn:Hsl; cbn; rewrite ?Hsl; cbn; rewrite ?Hs; repeat split.
Qed.

Lemma advance_not_slewing (da_ra da_dec : double) (s : state) :
  TrackState s <> SCOPE_SLEWING ->
  let s' := advance da_ra da_dec s in
  currentRA s' = currentRA s /\ currentDEC s' = currentDEC s /\
  targetRA s' = targetRA s /\ targetDEC s' = targetDEC s /\
  TrackState s' = TrackState s.
Proof.
  intros Hs. unfold advance.
  destruct (TrackState s) eqn:E; try congruence;
    destruct (Slewing s) eqn:Hsl, (Tracking s) eqn:Htr;
    cbn; rewrite ?Hsl, ?Htr; cbn; rewrite ?E; repeat split.
Qed.

Lemma TimerHit_unfold (c : clock) (s : state) :
  TimerHit c s =
  advance (d_mul (d_of_Z SLEW_RATE) (elapsed (ltv s) (now c)))
          (d_mul (d_of_Z SLEW_RATE) (elapsed (ltv s) (now c)))
          (Telescope_TimerHit (julian c) (set_ltv (now c) s)).
Proof. reflexivity. Qed.


(** C4, as the code has it: a slewing tick in which both axes lock ends in
    [SCOPE_TRACKING]; and the tick that follows a [Goto] to the current
    position locks both axes when the position is finite and the elapsed
    time the tick measures is not negative, zero included. The two
    conditions are needed: [fabs(dx) * 15 <= da_ra] is false for a negative
    step and for a NaN. *)
Theorem TimerHit_both_locked_tracking (c : clock) (s : state) :
  let step := d_mul (d_of_Z SLEW_RATE) (elapsed (ltv s) (now c)) in
  (TrackState s = SCOPE_SLEWING ->
   ra_locked step s = true -> dec_locked step s = true ->
   TrackState (TimerHit c s) = SCOPE_TRACKING) /\
  (is_finite (currentRA s) = true -> is_finite (currentDEC s) = true ->
   d_le (d_of_Z 0) (elapsed (ltv s) (now c)) = true ->
   let s0 := snd (Goto (currentRA s) (currentDEC s) s) in
   TrackState s0 = SCOPE_SLEWING /\
   TrackState (TimerHit c s0) = SCOPE_TRACKING).
Proof.
  intros step. split.
  - intros Hs Hra Hdec. rewrite TimerHit_unfold. fold step.
    destruct (advance_slewing step step
                (Telescope_TimerHit (julian c) (set_ltv (now c) s)) Hs)
      as (_ & _ & _ & _ & HT).
    rewrite HT. unfold ra_locked, dec_locked in *. cbn in *.
    rewrite Hra, Hdec. reflexivity.
  - intros Hfra Hfdec Hdt s0. split; [reflexivity|].
    rewrite TimerHit_unfold.
    assert (Hs : TrackState (Telescope_TimerHit (julian c) (set_ltv (now c) s0))
                 = SCOPE_SLEWING) by reflexivity.
    destruct (advance_slewing
                (d_mul (d_of_Z SLEW_RATE) (elapsed (ltv s0) (now c)))
                (d_mul (d_of_Z SLEW_RATE) (elapsed (ltv s0) (now c))) _ Hs)
      as (_ & _ & _ & _ & HT).
    rewrite HT. unfold ra_locked, dec_locked. cbn [Telescope_TimerHit ReadScopeStatus snd targetRA targetDEC currentRA
      currentDEC s0 Goto set_target set_TrackState LOG NewRaDec set_HorizontalCoordsN set_ltv ltv].
    rewrite (d_sub_diag _ Hfra), (d_sub_diag _ Hfdec).
    change (d_mul (fabs (S754_zero false)) (d_of_Z 15)) with (S754_zero false).
    change (fabs (S754_zero false)) with (S754_zero false).
    change (d_of_Z SLEW_RATE) with (d_of_Z 3).
    rewrite (step_nonneg _ Hdt). reflexivity.
Qed.

Lemma TimerHit_keeps_locked_RA (c : clock) (s : state) :
  is_finite (targetRA s) = true -> currentRA s = targetRA s ->
  d_le (d_of_Z 0) (elapsed (ltv s) (now c)) = true ->
  currentRA (TimerHit c s) = targetRA s /\ targetRA (TimerHit c s) = targetRA s.
Proof.
  intros Hfin Heq Hdt. rewrite TimerHit_unfold.
  set (s1 := Telescope_TimerHit (julian c) (set_ltv (now c) s)).
  set (step := d_mul (d_of_Z SLEW_RATE) (elapsed (ltv s) (now c))).
  destruct (TelescopeStatus_eqb (TrackState s1) SCOPE_SLEWING) eqn:E.
  - assert (Hs : TrackState s1 = SCOPE_SLEWING) by (destruct (TrackState s1); try discriminate; reflexivity).
    destruct (advance_slewing step step s1 Hs) as (HRA & _ & HtRA & _).
    rewrite HRA, HtRA. change (targetRA s1) with (targetRA s).
    change (currentRA s1) with (currentRA s). rewrite Heq.
    rewrite (d_sub_diag _ Hfin).
    change (d_mul (fabs (S754_zero false)) (d_of_Z 15)) with (S754_zero false).
    subst step. change (d_of_Z SLEW_RATE) with (d_of_Z 3).
    rewrite (step_nonneg _ Hdt). split; reflexivity.
  - assert (Hs : TrackState s1 <> SCOPE_SLEWING) by (intros K; rewrite K in E; discriminate).
    destruct (advance_not_slewing step step s1 Hs) as (HRA & _ & HtRA & _).
    rewrite HRA, HtRA. split; [exact Heq | reflexivity].
Qed.

Lemma TimerHit_keeps_locked_DEC (c : clock) (s : state) :
  is_finite (targetDEC s) = true -> currentDEC s = targetDEC s ->
  d_le (d_of_Z 0) (elapsed (ltv s) (now c)) = true ->
  currentDEC (TimerHit c s) = targetDEC s /\ targetDEC (TimerHit c s) = targetDEC s.
Proof.
  intros Hfin Heq Hdt. rewrite TimerHit_unfold.
  set (s1 := Telescope_TimerHit (julian c) (set_ltv (now c) s)).
  set (step := d_mul (d_of_Z SLEW_RATE) (elapsed (ltv s) (now c))).
  destruct (TelescopeStatus_eqb (TrackState s1) SCOPE_SLEWING) eqn:E.
  - assert (Hs : TrackState s1 = SCOPE_SLEWING) by (destruct (TrackState s1); try discriminate; reflexivity).
    destruct (advance_slewing step step s1 Hs) as (_ & HDEC & _ & HtDEC & _).
    rewrite HDEC, HtDEC. change (targetDEC s1) with (targetDEC s).
    change (currentDEC s1) with (currentDEC s). rewrite Heq.
    rewrite (d_sub_diag _ Hfin).
    change (fabs (S754_zero false)) with (S754_zero false).
    subst step. change (d_of_Z SLEW_RATE) with (d_of_Z 3).
    rewrite (step_nonneg _ Hdt). split; reflexivity.
  - assert (Hs : TrackState s1 <> SCOPE_SLEWING) by (intros K; rewrite K in E; discriminate).
    destruct (advance_not_slewing step step s1 Hs) as (_ & HDEC & _ & HtDEC & _).
    rewrite HDEC, HtDEC. split; [exact Heq | reflexivity].
Qed.

Lemma ticks_cons (c : clock) (cs : list clock) (s : state) :
  ticks (c :: cs) s = ticks cs (TimerHit c s).
Proof. unfold ticks at 1. fold ticks. reflexivity. Qed.

(** C10, as the code has it: an axis that sits on its finite target stays
    on it through every later tick, slewing or not, whatever the other axis
    does, as long as no tick sees the clock behind the previous reading; the
    ticks leave the target alone. A tick with no elapsed time is included.
    A zero distance is within the step exactly when the step is not
    negative, which is what [clock_forward] asks of every tick. *)
Theorem locked_axis_stays_locked (cs : list clock) (s : state) :
  clock_forward (ltv s) cs ->
  (is_finite (targetRA s) = true -> currentRA s = targetRA s ->
   currentRA (ticks cs s) = targetRA s /\ targetRA (ticks cs s) = targetRA s) /\
  (is_finite (targetDEC s) = true -> currentDEC s = targetDEC s ->
   currentDEC (ticks cs s) = targetDEC s /\ targetDEC (ticks cs s) = targetDEC s).
Proof.
  revert s. induction cs as [|c cs IH]; intros s Hclk.
  - cbn [ticks]. split; intros _ Heq; split; auto.
  - destruct Hclk as [Hdt Hrest]. rewrite ticks_cons.
    pose proof (TimerHit_ltv c s) as Hltv.
    pose proof (TimerHit_keeps_locked_RA c s) as HRA.
    pose proof (TimerHit_keeps_locked_DEC c s) as HDEC.
    revert Hltv HRA HDEC. generalize (TimerHit c s) as s1. intros s1 Hltv HRA HDEC.
    rewrite <- Hltv in Hrest. destruct (IH s1 Hrest) as [IHra IHdec]. split.
    + intros Hfin Heq. destruct (HRA Hfin Heq Hdt) as [H1 H2].
      rewrite <- H2. apply IHra; [rewrite H2; exact Hfin | rewrite H1, H2; reflexivity].
    + intros Hfin Heq. destruct (HDEC Hfin Heq Hdt) as [H1 H2].
      rewrite <- H2. apply IHdec; [rewrite H2; exact Hfin | rewrite H1, H2; reflexivity].
Qed.

(** The first tick has no elapsed time: the statics start at [{0, 0}]. *)
Lemma elapsed_first_tick (tv : timeval) :
  elapsed {| tv_sec := 0; tv_usec := 0 |} tv = S754_zero false.
Proof. unfold elapsed. cbn. rewrite !Z.sub_diag. reflexivity. Qed.

(** C7: a jog is refused (false, with an error line in the log) exactly
    when the mount is parked, and otherwise succeeds and does nothing; the
    equatorial pair, the target and the Motion State stay in both cases. *)
Theorem jog_rejected_iff_parked (s : state) :
  (TrackState s = SCOPE_PARKED ->
   MoveNS s = (false, LOG DBG_ERROR unpark_first s) /\
   MoveWE s = (false, LOG DBG_ERROR unpark_first s) /\
   motion (snd (MoveNS s)) = motion s /\ motion (snd (MoveWE s)) = motion s /\
   TrackState (snd (MoveNS s)) = SCOPE_PARKED /\
   TrackState (snd (MoveWE s)) = SCOPE_PARKED) /\
  (TrackState s <> SCOPE_PARKED ->
   MoveNS s = (true, s) /\ MoveWE s = (true, s)).
Proof.
  unfold MoveNS, MoveWE. split.
  - intros Hp. rewrite Hp. cbn. rewrite Hp. repeat split.
  - intros Hn. destruct (TrackState s); try contradiction; repeat split.
Qed.

(** [Goto] never looks at the state it is called in. *)
Lemma Goto_unconditional (ra dec : double) (s : state) :
  fst (Goto ra dec s) = true /\
  TrackState (snd (Goto ra dec s)) = SCOPE_SLEWING /\
  targetRA (snd (Goto ra dec s)) = ra /\ targetDEC (snd (Goto ra dec s)) = dec /\
  currentRA (snd (Goto ra dec s)) = currentRA s /\
  currentDEC (snd (Goto ra dec s)) = currentDEC s.
Proof. repeat split. Qed.

(** [Abort] reports success and returns the state it was given. *)
Lemma Abort_unconditional (s : state) : Abort s = (true, s).
Proof. reflexivity. Qed.

(** The horizontal pair of a status cycle is libnova's answer at the
    normalised longitude, turned from south-based to north-based azimuth. *)
Lemma ReadScopeStatus_horizontal (JD : double) (s : state) :
  HorizontalCoordsN (snd (ReadScopeStatus JD s)) =
  (let hrz := ln_get_hrz_from_equ (d_mul (currentRA s) (d_of_Z 15), currentDEC s)
                                  (lnobserver_lng s, LocationN_LATITUDE s) JD in
   (range360 (d_add (fst hrz) (d_of_Z 180)), snd hrz)).
Proof. reflexivity. Qed.

(** C8: with the observer at longitude 200 the status cycle publishes the
    horizontal pair it publishes at longitude -160, for every equatorial
    position and time; the longitude handed to the transformation is the
    stored one minus 360 when that is above 180, and the stored one
    otherwise. *)
Theorem longitude_200_is_minus_160 (JD lng : double) (s : state) :
  HorizontalCoordsN (snd (ReadScopeStatus JD (set_LONGITUDE (d_of_Z 200) s))) =
  HorizontalCoordsN (snd (ReadScopeStatus JD (set_LONGITUDE (d_of_Z (-160)) s))) /\
  lnobserver_lng (set_LONGITUDE lng s) =
    (if d_gt lng (d_of_Z 180) then d_sub lng (d_of_Z 360) else lng) /\
  HorizontalCoordsN (snd (ReadScopeStatus JD (set_LONGITUDE lng s))) =
    (let hrz := ln_get_hrz_from_equ
                  (d_mul (currentRA s) (d_of_Z 15), currentDEC s)
                  (lnobserver_lng (set_LONGITUDE lng s), LocationN_LATITUDE s) JD in
     (range360 (d_add (fst hrz) (d_of_Z 180)), snd hrz)).
Proof.
  split; [|split].
  - rewrite !ReadScopeStatus_horizontal.
    assert (E : lnobserver_lng (set_LONGITUDE (d_of_Z 200) s) =
                lnobserver_lng (set_LONGITUDE (d_of_Z (-160)) s))
      by (unfold lnobserver_lng; cbn [LocationN_LONGITUDE set_LONGITUDE]; vm_compute; reflexivity).
    rewrite E. reflexivity.
  - reflexivity.
  - rewrite ReadScopeStatus_horizontal. reflexivity.
Qed.
End SimulatorFacts.

Section SimulatorRuns.
Import IEEE754 INDI AltAzMountSimulator.

(** C1, on the code: called on a parked mount, [Goto] answers true, stores
    the target and leaves the mount slewing, where the jog handlers of the
    same file refuse. *)
Theorem Goto_on_parked_mount_slews :
  TrackState parked_mount = SCOPE_PARKED /\
  fst (Goto (d_of_Z 5) (d_of_Z 45) parked_mount) = true /\
  TrackState (snd (Goto (d_of_Z 5) (d_of_Z 45) parked_mount)) = SCOPE_SLEWING /\
  targetRA (snd (Goto (d_of_Z 5) (d_of_Z 45) parked_mount)) = d_of_Z 5 /\
  targetDEC (snd (Goto (d_of_Z 5) (d_of_Z 45) parked_mount)) = d_of_Z 45 /\
  targetRA parked_mount = d_of_Z 0 /\ targetDEC parked_mount = d_of_Z 0 /\
  fst (MoveNS parked_mount) = false /\ fst (MoveWE parked_mount) = false.
Proof. repeat split. Qed.

(** C5, on the code: [Abort] on a slewing mount answers true and the mount
    is still slewing; the next tick moves both axes one more step. *)
Theorem Abort_leaves_mount_slewing :
  TrackState slewing_mount = SCOPE_SLEWING /\
  fst (Abort slewing_mount) = true /\
  TrackState (snd (Abort slewing_mount)) = SCOPE_SLEWING /\
  let s := @TimerHit no_sky t1 (snd (Abort slewing_mount)) in
  TrackState s = SCOPE_SLEWING /\
  currentRA slewing_mount = d_of_Z 0 /\ currentDEC slewing_mount = d_of_Z 90 /\
  currentRA s = d_of_decimal false 2 1 /\ currentDEC s = d_of_Z 87.
Proof. vm_compute. repeat split. Qed.


Lemma TimerHit_both_locked_tracking_witness :
  TrackState arrived_mount = SCOPE_SLEWING /\
  TrackState (@TimerHit no_sky t0 arrived_mount) = SCOPE_TRACKING /\
  TrackState (@TimerHit no_sky t1
                (snd (Goto (currentRA slewing_mount) (currentDEC slewing_mount) slewing_mount)))
    = SCOPE_TRACKING.
Proof.
  split; [reflexivity|]. split.
  - apply (proj1 (@TimerHit_both_locked_tracking no_sky t0 arrived_mount));
      vm_compute; reflexivity.
  - apply (proj2 (@TimerHit_both_locked_tracking no_sky t1 slewing_mount));
      vm_compute; reflexivity.
Defined.

Lemma jog_rejected_iff_parked_witness :
  fst (MoveNS parked_mount) = false /\ fst (MoveWE parked_mount) = false /\
  TrackState (snd (MoveNS parked_mount)) = SCOPE_PARKED /\
  MoveNS slewing_mount = (true, slewing_mount) /\
  MoveWE slewing_mount = (true, slewing_mount).
Proof.
  destruct (proj1 (jog_rejected_iff_parked parked_mount) eq_refl)
    as (N & W & _ & _ & TN & _).
  destruct (proj2 (jog_rejected_iff_parked slewing_mount)) as (N' & W').
  { vm_compute. discriminate. }
  rewrite N, W. repeat split; assumption.
Defined.

Lemma locked_axis_stays_locked_witness :
  currentDEC (@ticks no_sky [t0; t1] declination_slew) = d_of_Z 87 /\
  TrackState (@ticks no_sky [t0; t1] declination_slew) = SCOPE_SLEWING /\
  currentRA (@ticks no_sky [t0; t1] declination_slew) = targetRA declination_slew /\
  targetRA (@ticks no_sky [t0; t1] declination_slew) = targetRA declination_slew.
Proof.
  split; [vm_compute; reflexivity|]. split; [vm_compute; reflexivity|].
  refine (proj1 (@locked_axis_stays_locked no_sky [t0; t1] declination_slew _) _ _).
  - cbn [clock_forward]. repeat split; vm_compute; reflexivity.
  - vm_compute; reflexivity.
  - reflexivity.
Defined.

(** C4, as stated, fails when [gettimeofday] reads earlier than at the
    previous tick: the mount is sent to where it is, at (0 h, 90 deg), the
    next tick measures -1 s, the step is -3 deg, no distance is within it,
    and the tick leaves the mount slewing and away from the target, at
    (0.2 h, 93 deg). *)
Lemma Goto_to_current_position_clock_set_back :
  let s := @TimerHit no_sky t1 (initial (d_of_Z 0) (d_of_Z 0)) in
  let s0 := snd (Goto (currentRA s) (currentDEC s) s) in
  currentRA s = d_of_Z 0 /\ currentDEC s = d_of_Z 90 /\
  TrackState s0 = SCOPE_SLEWING /\
  targetRA s0 = currentRA s0 /\ targetDEC s0 = currentDEC s0 /\
  elapsed (ltv s0) (now t0) = d_of_Z (-1) /\
  TrackState (@TimerHit no_sky t0 s0) = SCOPE_SLEWING /\
  TrackState (@TimerHit no_sky t0 s0) <> SCOPE_TRACKING /\
  currentRA (@TimerHit no_sky t0 s0) = d_of_decimal false 2 1 /\
  currentDEC (@TimerHit no_sky t0 s0) = d_of_Z 93.
Proof. vm_compute. repeat split. discriminate. Qed.

(** C10, as stated, fails when the wall clock is set back between two
    ticks of a slew: the step is negative, no distance is within it, and an
    axis on its target leaves it, here by 3/15 h after one second backwards,
    with the target unchanged. *)
Example clock_set_back_moves_locked_axis :
  let s := @TimerHit no_sky t1 declination_slew in
  TrackState s = SCOPE_SLEWING /\
  currentRA s = targetRA s /\
  elapsed (ltv s) (now t0) = d_of_Z (-1) /\
  currentRA (@TimerHit no_sky t0 s) = d_of_decimal false 2 1 /\
  targetRA (@TimerHit no_sky t0 s) = d_of_Z 0 /\
  targetRA (@TimerHit no_sky t0 s) = targetRA s /\
  currentRA (@TimerHit no_sky t0 s) <> targetRA (@TimerHit no_sky t0 s).
Proof. vm_compute. repeat split. discriminate. Qed.
End SimulatorRuns.

(** ** The 10micron status poll *)

Section PollFacts.
Import IEEE754 INDI CLib LX200_10MICRON.
Local Open Scope string_scope.
Local Open Scope Z_scope.
Context `{GSTAT} `{NumericInput} `{LX200Generic}.

Ltac split_cases :=
  repeat match goal with
         | |- context [?a =? ?b] => destruct (Z.eqb_spec a b)
         | K : context [?a =? ?b] |- _ => destruct (Z.eqb_spec a b)
         end.

Lemma TrackState_of_Gstat_known (g : Z) :
  In g known_codes -> exists t, TrackState_of_Gstat g = Some t.
Proof.
  intros Hin. unfold TrackState_of_Gstat. split_cases; eauto.
  exfalso. unfold known_codes in Hin. cbn [In] in Hin. intuition congruence.
Qed.

Lemma TrackState_of_Gstat_unknown (g : Z) :
  ~ In g known_codes -> TrackState_of_Gstat g = None.
Proof.
  intros Hin. unfold TrackState_of_Gstat.
  split_cases; try reflexivity; exfalso; apply Hin; unfold known_codes; cbn [In]; subst g; tauto.
Qed.

(** A reply without its terminator is refused and nothing is touched. *)
Lemma missing_terminator_refused (io : exchange) (s : state) :
  Simulation s = false -> terminate_after "#" (data io) = None ->
  ReadScopeStatus io s = (false, s).
Proof.
  intros Hsim Hterm. unfold ReadScopeStatus. rewrite Hsim, Hterm.
  destruct (negb (Connected s)), (negb (is_TTY_OK (write_result io))),
    (negb (is_TTY_OK (read_result io))); reflexivity.
Qed.

(** A failed write or read is refused and nothing is touched. *)
Lemma transport_error_refused (io : exchange) (s : state) :
  Simulation s = false ->
  is_TTY_OK (write_result io) = false \/ is_TTY_OK (read_result io) = false ->
  ReadScopeStatus io s = (false, s).
Proof.
  intros Hsim Hio. unfold ReadScopeStatus. rewrite Hsim.
  destruct (negb (Connected s)); [reflexivity|].
  destruct Hio as [-> | ->]; cbn; [reflexivity|].
  destruct (negb (is_TTY_OK (write_result io))); reflexivity.
Qed.

Lemma unknown_code_refused (io : exchange) (s : state) (reply : string) :
  Simulation s = false ->
  terminate_after "#" (data io) = Some reply ->
  ~ In (Gstat (parse_Ginfo reply)) known_codes ->
  fst (ReadScopeStatus io s) = false /\
  motion (snd (ReadScopeStatus io s)) = motion s.
Proof.
  intros Hsim Hterm Hun. unfold ReadScopeStatus. rewrite Hsim, Hterm.
  rewrite (TrackState_of_Gstat_unknown _ Hun).
  destruct (negb (Connected s)); [split; reflexivity|].
  destruct (negb (is_TTY_OK (write_result io))); [split; reflexivity|].
  destruct (negb (is_TTY_OK (read_result io))); [split; reflexivity|].
  destruct (nbytes_read (parse_Ginfo reply) <? 0); [split; reflexivity|].
  cbn [LOG OldGstat].
  destruct (negb (Gstat (parse_Ginfo reply) =? OldGstat s) && negb (OldGstat s =? -1));
    split; reflexivity.
Qed.

(** C6: every case label of the switch has a Motion State; a reply whose
    status code is no case label makes the poll fail, and the Motion State,
    the reported coordinates, [OldGstat] and the parked flag are the ones
    from before; a reply whose status code is a case label, read from a
    working line, makes the poll succeed with the label's Motion State. *)
Theorem status_code_mapping (io : exchange) (s : state) (reply : string) :
  (forall g, In g known_codes -> exists t, TrackState_of_Gstat g = Some t) /\
  (Simulation s = false ->
   terminate_after "#" (data io) = Some reply ->
   ~ In (Gstat (parse_Ginfo reply)) known_codes ->
   fst (ReadScopeStatus io s) = false /\
   motion (snd (ReadScopeStatus io s)) = motion s) /\
  (Connected s = true -> Simulation s = false ->
   write_result io = TTY_OK -> read_result io = TTY_OK ->
   terminate_after "#" (data io) = Some reply ->
   0 <= nbytes_read (parse_Ginfo reply) ->
   In (Gstat (parse_Ginfo reply)) known_codes ->
   fst (ReadScopeStatus io s) = true /\
   TrackState_of_Gstat (Gstat (parse_Ginfo reply)) =
     Some (TrackState (snd (ReadScopeStatus io s)))).
Proof.
  split; [exact TrackState_of_Gstat_known | split].
  - apply unknown_code_refused.
  - intros Hcon Hsim Hw Hr Hterm Hn Hin. unfold ReadScopeStatus.
    rewrite Hcon, Hsim, Hw, Hr, Hterm. cbn [negb is_TTY_OK].
    destruct (Z.ltb_spec (nbytes_read (parse_Ginfo reply)) 0) as [Hlt|_]; [lia|].
    destruct (TrackState_of_Gstat_known _ Hin) as [t Ht]. rewrite Ht.
    split; [reflexivity|].
    cbn [LOG OldGstat snd].
    destruct (negb (Gstat (parse_Ginfo reply) =? OldGstat s) && negb (OldGstat s =? -1));
      cbn; destruct (TelescopeStatus_eqb t SCOPE_PARKED && negb (Parked s)); reflexivity.
Qed.

(** With fewer than seven conversions [Gstat] keeps its initialiser. *)
Lemma short_reply_Gstat (reply : string) :
  nbytes_read (parse_Ginfo reply) < 7 -> Gstat (parse_Ginfo reply) = -1.
Proof.
  unfold parse_Ginfo, sscanf.
  destruct (scan (directives "%g,%g,%c,%g,%g,%g,%d,%d#") reply) as [args eof].
  cbn [nbytes_read Gstat]. intros Hn. unfold int_arg.
  assert (Hlen : (List.length args <= 6)%nat).
  { destruct (eof && (Z.of_nat (List.length args) =? 0)) eqn:E.
    - apply andb_true_iff in E. destruct E as [_ E]. apply Z.eqb_eq in E. lia.
    - lia. }
  apply nth_error_None in Hlen. rewrite Hlen. reflexivity.
Qed.

(** A reply with fewer than seven convertible fields is refused, as long
    as -1 is no status code of the mount. *)
Lemma short_reply_refused (io : exchange) (s : state) (reply : string) :
  Simulation s = false ->
  terminate_after "#" (data io) = Some reply ->
  nbytes_read (parse_Ginfo reply) < 7 ->
  ~ In (-1) known_codes ->
  fst (ReadScopeStatus io s) = false /\
  motion (snd (ReadScopeStatus io s)) = motion s.
Proof.
  intros Hsim Hterm Hn Hcodes.
  apply (unknown_code_refused io s reply); auto.
  rewrite (short_reply_Gstat reply Hn). exact Hcodes.
Qed.
End PollFacts.

Section PollRuns.
Import IEEE754 INDI CLib LX200_10MICRON.
Local Open Scope string_scope.
Local Open Scope Z_scope.

(** C2, on the code: a reply of seven fields, and one whose eighth field is
    no number, are accepted: the poll answers true, the Motion State and
    the coordinates are the reply's, and [SlewStatus] keeps its initialiser. *)
Theorem seven_field_reply_is_applied :
  let poll := @ReadScopeStatus protocol_GSTAT decimal_input no_simulator in
  let short := "1.5,2.5,E,3.0,4.0,5.0,0#" in
  let junk := "1.5,2.5,E,3.0,4.0,5.0,0,zz#" in
  nbytes_read (@parse_Ginfo decimal_input short) = 7 /\
  SlewStatus (@parse_Ginfo decimal_input short) = -1 /\
  fst (poll (received short) idle_mount) = true /\
  TrackState (snd (poll (received short) idle_mount)) = SCOPE_TRACKING /\
  EqN (snd (poll (received short) idle_mount)) = (d_of_decimal false 15 1, d_of_decimal false 25 1) /\
  nbytes_read (@parse_Ginfo decimal_input junk) = 7 /\
  fst (poll (received junk) idle_mount) = true /\
  TrackState (snd (poll (received junk) idle_mount)) = SCOPE_TRACKING /\
  EqN (snd (poll (received junk) idle_mount)) = (d_of_decimal false 15 1, d_of_decimal false 25 1) /\
  TrackState idle_mount = SCOPE_IDLE /\ EqN idle_mount = (d_of_Z 0, d_of_Z 0).
Proof. vm_compute. repeat split. Qed.

Lemma status_code_mapping_witness :
  let poll := @ReadScopeStatus protocol_GSTAT decimal_input no_simulator in
  let unknown := "1.5,2.5,E,3.0,4.0,5.0,42,0#" in
  let slewing := "1.5,2.5,E,3.0,4.0,5.0,6,0#" in
  fst (poll (received unknown) idle_mount) = false /\
  motion (snd (poll (received unknown) idle_mount)) = motion idle_mount /\
  fst (poll (received slewing) idle_mount) = true /\
  TrackState (snd (poll (received slewing) idle_mount)) = SCOPE_SLEWING.
Proof.
  intros poll unknown slewing.
  destruct (proj1 (proj2 (@status_code_mapping protocol_GSTAT decimal_input no_simulator
                            (received unknown) idle_mount unknown)))
    as [U1 U2]; [reflexivity | reflexivity | vm_compute; intuition discriminate |].
  destruct (proj2 (proj2 (@status_code_mapping protocol_GSTAT decimal_input no_simulator
                            (received slewing) idle_mount slewing)))
    as [K1 K2]; [reflexivity | reflexivity | reflexivity | reflexivity | reflexivity
                 | vm_compute; discriminate | vm_compute; tauto |].
  split; [exact U1 | split; [exact U2 | split; [exact K1 |]]].
  assert (E : @TrackState_of_Gstat protocol_GSTAT
                (Gstat (@parse_Ginfo decimal_input slewing)) = Some SCOPE_SLEWING)
    by (vm_compute; reflexivity).
  rewrite E in K2. subst poll. congruence.
Defined.
End PollRuns.

(** ** The refraction temperature codec *)

Section CodecFacts.
Import IEEE754 INDI CLib LX200_10MICRON.
Local Open Scope string_scope.
Local Open Scope Z_scope.

Lemma same_float_eq (x y : spec_float) : same_float x y = true <-> x = y.
Proof.
  destruct x as [s|s| |s m e], y as [s'|s'| |s' m' e']; cbn;
    try (split; [discriminate | discriminate]);
    try (rewrite Bool.eqb_true_iff; split; congruence);
    try (split; reflexivity).
  rewrite !andb_true_iff, Bool.eqb_true_iff, Pos.eqb_eq, Z.eqb_eq.
  split; [intros [[-> ->] ->]; reflexivity | intros E; injection E; auto].
Qed.

Lemma grid_covers (n : nat) : forall (lo k : Z),
  lo <= k < lo + Z.of_nat n -> In k (grid lo n).
Proof.
  induction n as [|n IH]; intros lo k Hk; [lia|].
  cbn [grid In]. destruct (Z.eq_dec lo k) as [E|E]; [left; exact E|].
  right. apply IH. lia.
Qed.

Lemma roundtrip_check_grid : forallb roundtrip_check (grid (-9999) (Z.to_nat 19999)) = true.
Proof. vm_cast_no_check (eq_refl true). Qed.

Lemma roundtrip_check_in_range (k : Z) : -9999 <= k <= 9999 -> roundtrip_check k = true.
Proof.
  intros Hk. pose proof roundtrip_check_grid as G. rewrite forallb_forall in G.
  apply G, grid_covers. rewrite Z2Nat.id; lia.
Qed.

(** [snprintf(data, 16, ...)] keeps a command with a six-character field whole. *)
Lemma SRTMP_six (t : double) :
  String.length (printf_0plus6_1f t) = 6%nat ->
  SRTMP t = "#:SRTMP" ++ printf_0plus6_1f t ++ "#".
Proof.
  unfold SRTMP. generalize (printf_0plus6_1f t) as F. intros F HF.
  do 6 (destruct F as [|? F]; [discriminate HF|]).
  destruct F; [reflexivity | discriminate HF].
Qed.

(** C9, as the code has it: for every temperature [k / 10] of the grid from
    -999.9 to 999.9 the command sent is [#:SRTMP], a six-character field
    (sign, three digits, point, one digit) and [#]; reading the field back
    with [%f#] stores, whatever [rmtemp] held, a [double] that prints as the
    same field and gives the same command; it is the [double] that was sent
    exactly when [k] is a multiple of 5 (the value fits a [float]). *)
Theorem refraction_temperature_roundtrip
    (k : Z) (rmtemp : float) (s : state) (setStandardProcedure : string -> Z) :
  -9999 <= k <= 9999 ->
  let t := temperature_of_tenths k in
  let F := printf_0plus6_1f t in
  let stored :=
    RefractionModelTemperatureN_value (@getBasicData_temperature decimal_input F rmtemp s) in
  F = field_of_tenths k /\ String.length F = 6%nat /\
  SetRefractionModelTemperature setStandardProcedure t =
    setStandardProcedure ("#:SRTMP" ++ F ++ "#") /\
  printf_0plus6_1f stored = F /\ SRTMP stored = SRTMP t /\
  (stored = t <-> k mod 5 = 0).
Proof.
  intros Hk t F stored. pose proof (roundtrip_check_in_range k Hk) as C.
  unfold roundtrip_check in C. fold t in C. fold F in C.
  unfold stored, getBasicData_temperature, read_rmtemp, SetRefractionModelTemperature.
  cbn [RefractionModelTemperatureN_value LOG set_RefractionModelTemperature].
  destruct (@sscanf decimal_input F "%f#") as [n args].
  apply andb_true_iff in C. destruct C as [C C3].
  apply andb_true_iff in C. destruct C as [C1 C2].
  apply String.eqb_eq in C1. apply Nat.eqb_eq in C2.
  destruct n as [|[| |]|]; try discriminate C3.
  destruct args as [|[f| |] [|]]; try discriminate C3.
  apply andb_true_iff in C3. destruct C3 as [C3 C4].
  apply String.eqb_eq in C3. apply Bool.eqb_prop in C4.
  cbn [snd float_arg nth_error].
  assert (HS : SRTMP t = "#:SRTMP" ++ F ++ "#") by (apply SRTMP_six; exact C2).
  split; [exact C1|]. split; [exact C2|]. split; [rewrite HS; reflexivity|].
  split; [exact C3|]. split.
  - rewrite HS. fold F in C2. rewrite <- C3 in C2 |- *. apply SRTMP_six. exact C2.
  - split.
    + intros E. apply same_float_eq in E. rewrite E in C4. symmetry in C4.
      apply Z.eqb_eq in C4. exact C4.
    + intros E. apply Z.eqb_eq in E. rewrite E in C4. apply same_float_eq. exact C4.
Qed.

Lemma refraction_temperature_roundtrip_witness :
  printf_0plus6_1f (temperature_of_tenths (-125)) = "-012.5" /\
  SetRefractionModelTemperature (fun data => Z.of_nat (String.length data))
    (temperature_of_tenths (-125)) = 14 /\
  RefractionModelTemperatureN_value
    (@getBasicData_temperature decimal_input "-012.5" S754_nan idle_mount)
  = temperature_of_tenths (-125).
Proof.
  pose proof (refraction_temperature_roundtrip (-125) S754_nan idle_mount
                (fun data => Z.of_nat (String.length data)) ltac:(lia)) as W.
  cbv zeta in W. destruct W as (W1 & _ & W3 & _ & _ & W6).
  change (field_of_tenths (-125)) with "-012.5" in W1.
  rewrite W1 in W3, W6.
  split; [exact W1 | split; [exact W3 | apply W6; reflexivity]].
Defined.

(** C9, as stated, fails at 0.1: the field is [+000.1], and what is read
    back and stored is the [float] nearest to 0.1, which is not the
    [double] nearest to 0.1. *)
Lemma refraction_temperature_not_exact :
  temperature_of_tenths 1 = S754_finite false 7205759403792794 (-56) /\
  SRTMP (temperature_of_tenths 1) = "#:SRTMP+000.1#" /\
  RefractionModelTemperatureN_value
    (@getBasicData_temperature decimal_input "+000.1" S754_nan idle_mount)
  = S754_finite false 7205759511166976 (-56) /\
  RefractionModelTemperatureN_value
    (@getBasicData_temperature decimal_input
       (printf_0plus6_1f (temperature_of_tenths 1)) S754_nan idle_mount)
  <> temperature_of_tenths 1.
Proof. vm_compute. repeat split. discriminate. Qed.
End CodecFacts.

(* ================================================================== *)
(** * Further properties *)
(* ================================================================== *)

(** ** Sessions of the simulated mount *)

Section SessionFacts.
Import IEEE754 INDI AltAzMountSimulator AltAzMountSession.
Context `{Astronomy}.

Lemma TelescopeStatus_eqb_eq (a b : TelescopeStatus) :
  TelescopeStatus_eqb a b = true <-> a = b.
Proof. destruct a, b; cbn; split; congruence. Qed.

Lemma session_cons (k : call) (ks : list call) (s : state) :
  session (k :: ks) s = session ks (after k s).
Proof. unfold session at 1. fold session. reflexivity. Qed.

(** What a tick does to the target and to the Motion State, whatever the
    state it starts in. *)
Lemma TimerHit_target_state (c : clock) (s : state) :
  targetRA (TimerHit c s) = targetRA s /\ targetDEC (TimerHit c s) = targetDEC s /\
  (TrackState (TimerHit c s) = TrackState s \/
   TrackState s = SCOPE_SLEWING /\ TrackState (TimerHit c s) = SCOPE_TRACKING).
Proof.
  rewrite TimerHit_unfold.
  set (s1 := Telescope_TimerHit (julian c) (set_ltv (now c) s)).
  set (step := d_mul (d_of_Z SLEW_RATE) (elapsed (ltv s) (now c))).
  change (targetRA s) with (targetRA s1). change (targetDEC s) with (targetDEC s1).
  change (TrackState s) with (TrackState s1).
  destruct (TelescopeStatus_eqb (TrackState s1) SCOPE_SLEWING) eqn:E.
  - apply TelescopeStatus_eqb_eq in E.
    destruct (advance_slewing step step s1 E) as (_ & _ & HtRA & HtDEC & HT).
    split; [exact HtRA|]. split; [exact HtDEC|]. rewrite HT, E.
    destruct (ra_locked step s1 && dec_locked step s1); auto.
  - assert (Hs : TrackState s1 <> SCOPE_SLEWING)
      by (intros K; apply TelescopeStatus_eqb_eq in K; congruence).
    destruct (advance_not_slewing step step s1 Hs) as (_ & _ & HtRA & HtDEC & HT).
    auto.
Qed.

Lemma after_TrackState (k : call) (s : state) :
  TrackState (after k s) = TrackState s /\ is_Goto k = false \/
  TrackState (after k s) = SCOPE_SLEWING \/
  TrackState (after k s) = SCOPE_TRACKING /\ is_Goto k = false.
Proof.
  destruct k as [ra dec| | | |c]; cbn [after is_Goto].
  - right. left. reflexivity.
  - left. unfold MoveNS. destruct (TelescopeStatus_eqb (TrackState s) SCOPE_PARKED); auto.
  - left. unfold MoveWE. destruct (TelescopeStatus_eqb (TrackState s) SCOPE_PARKED); auto.
  - left. auto.
  - destruct (TimerHit_target_state c s) as (_ & _ & [E | [_ E]]); auto.
Qed.

(** X1: whatever handlers are called in whatever order, the mount ends
    slewing or tracking, or else no [Goto] was among the calls and the Motion
    State is the one it started with: no call parks the mount or brings it
    back to idle, [Abort] included. *)
Theorem session_never_idles_or_parks (ks : list call) (s : state) :
  TrackState (session ks s) = SCOPE_SLEWING \/
  TrackState (session ks s) = SCOPE_TRACKING \/
  TrackState (session ks s) = TrackState s /\ existsb is_Goto ks = false.
Proof.
  revert s. induction ks as [|k ks IH]; intros s.
  - right. right. split; reflexivity.
  - rewrite session_cons. cbn [existsb].
    destruct (IH (after k s)) as [E | [E | [E G]]]; auto.
    rewrite E, G.
    destruct (after_TrackState k s) as [[E' G'] | [E' | [E' G']]]; rewrite ?G'; auto.
Qed.

Lemma after_target (k : call) (s : state) :
  (targetRA (after k s), targetDEC (after k s)) =
  match k with
  | call_Goto ra dec => (ra, dec)
  | _ => (targetRA s, targetDEC s)
  end.
Proof.
  destruct k as [ra dec| | | |c]; cbn [after]; try reflexivity.
  - unfold MoveNS. destruct (TelescopeStatus_eqb (TrackState s) SCOPE_PARKED); reflexivity.
  - unfold MoveWE. destruct (TelescopeStatus_eqb (TrackState s) SCOPE_PARKED); reflexivity.
  - destruct (TimerHit_target_state c s) as (E1 & E2 & _). rewrite E1, E2. reflexivity.
Qed.

(** X2: after any session the target is the pair of arguments of its last
    [Goto], and the target it started with when it has none: jogs, [Abort]
    and ticks never touch the target, and a later [Goto] replaces an earlier
    one whole. *)
Theorem session_target_is_last_Goto (ks : list call) (s : state) :
  (targetRA (session ks s), targetDEC (session ks s)) =
  last_Goto ks (targetRA s, targetDEC s).
Proof.
  revert s. induction ks as [|k ks IH]; intros s; [reflexivity|].
  rewrite session_cons, IH, after_target. destruct k; reflexivity.
Qed.

Lemma after_position (k : call) (s : state) :
  is_TimerHit k = false ->
  currentRA (after k s) = currentRA s /\ currentDEC (after k s) = currentDEC s /\
  HorizontalCoordsN (after k s) = HorizontalCoordsN s.
Proof.
  destruct k as [ra dec| | | |c]; cbn [after is_TimerHit]; intros Hk;
    try discriminate Hk.
  - repeat split.
  - unfold MoveNS. destruct (TelescopeStatus_eqb (TrackState s) SCOPE_PARKED); repeat split.
  - unfold MoveWE. destruct (TelescopeStatus_eqb (TrackState s) SCOPE_PARKED); repeat split.
  - repeat split.
Qed.

(** X3: the commands never move the mount: in a session without a tick the
    equatorial pair and the published horizontal pair are the ones from
    before, whatever was commanded. *)
Theorem session_without_tick_keeps_position (ks : list call) (s : state) :
  existsb is_TimerHit ks = false ->
  currentRA (session ks s) = currentRA s /\
  currentDEC (session ks s) = currentDEC s /\
  HorizontalCoordsN (session ks s) = HorizontalCoordsN s.
Proof.
  revert s. induction ks as [|k ks IH]; intros s Hks; [repeat split|].
  rewrite session_cons. cbn [existsb] in Hks. apply orb_false_iff in Hks.
  destruct Hks as [Hk Hks].
  destruct (IH (after k s) Hks) as (E1 & E2 & E3).
  destruct (after_position k s Hk) as (F1 & F2 & F3).
  rewrite E1, E2, E3, F1, F2, F3. repeat split.
Qed.

End SessionFacts.

Section SessionRuns.
Import IEEE754 INDI AltAzMountSimulator AltAzMountSession.

Lemma session_without_tick_keeps_position_witness :
  let ks := [call_Goto (d_of_Z 5) (d_of_Z 45); call_MoveNS; call_Abort; call_MoveWE;
             call_Goto (d_of_Z 7) (d_of_Z 10)] in
  currentRA (@session no_sky ks (initial (d_of_Z 0) (d_of_Z 0))) = d_of_Z 0 /\
  currentDEC (@session no_sky ks (initial (d_of_Z 0) (d_of_Z 0))) = d_of_Z 90.
Proof.
  intros ks.
  destruct (@session_without_tick_keeps_position no_sky ks
              (initial (d_of_Z 0) (d_of_Z 0)) eq_refl) as (E1 & E2 & _).
  split; [exact E1 | exact E2].
Defined.
End SessionRuns.

(** ** Ticks of the simulated mount *)

Section TickFacts.
Import IEEE754 INDI AltAzMountSimulator.
Context `{Astronomy}.

Lemma SLEWING_dec (t : TelescopeStatus) : t = SCOPE_SLEWING \/ t <> SCOPE_SLEWING.
Proof. destruct t; (left; reflexivity) || (right; discriminate). Qed.

(** X4: a slewing tick ends in tracking exactly when both axes lock in it,
    and leaves the mount slewing otherwise: one locked axis never ends the
    slew. *)
Theorem slewing_tick_tracks_iff_both_lock (c : clock) (s : state) :
  TrackState s = SCOPE_SLEWING ->
  let step := d_mul (d_of_Z SLEW_RATE) (elapsed (ltv s) (now c)) in
  (TrackState (TimerHit c s) = SCOPE_TRACKING <->
   ra_locked step s = true /\ dec_locked step s = true) /\
  (TrackState (TimerHit c s) <> SCOPE_TRACKING ->
   TrackState (TimerHit c s) = SCOPE_SLEWING).
Proof.
  intros Hs step. rewrite TimerHit_unfold. fold step.
  destruct (advance_slewing step step
              (Telescope_TimerHit (julian c) (set_ltv (now c) s)) Hs)
    as (_ & _ & _ & _ & HT).
  rewrite HT.
  change (ra_locked step (Telescope_TimerHit (julian c) (set_ltv (now c) s)))
    with (ra_locked step s).
  change (dec_locked step (Telescope_TimerHit (julian c) (set_ltv (now c) s)))
    with (dec_locked step s).
  destruct (ra_locked step s), (dec_locked step s); cbn; repeat split;
    try congruence; intros [? ?]; discriminate.
Qed.

Lemma TimerHit_outside_slew (c : clock) (s : state) :
  TrackState s <> SCOPE_SLEWING -> motion (TimerHit c s) = motion s.
Proof.
  intros Hs. rewrite TimerHit_unfold.
  destruct (advance_not_slewing
              (d_mul (d_of_Z SLEW_RATE) (elapsed (ltv s) (now c)))
              (d_mul (d_of_Z SLEW_RATE) (elapsed (ltv s) (now c)))
              (Telescope_TimerHit (julian c) (set_ltv (now c) s)) Hs)
    as (E1 & E2 & E3 & E4 & E5).
  unfold motion. rewrite E1, E2, E3, E4, E5. reflexivity.
Qed.

(** X5: ticks only move a slewing mount: from any other Motion State
    (tracking, idle, parked, parking) a run of ticks of any length and timing
    leaves the equatorial pair, the target and the Motion State as they are. *)
Theorem ticks_outside_slew_keep_motion (cs : list clock) (s : state) :
  TrackState s <> SCOPE_SLEWING -> motion (ticks cs s) = motion s.
Proof.
  revert s. induction cs as [|c cs IH]; intros s Hs; [reflexivity|].
  rewrite ticks_cons. pose proof (TimerHit_outside_slew c s Hs) as E.
  rewrite IH; [exact E|].
  unfold motion in E. injection E as _ _ _ _ E. rewrite E. exact Hs.
Qed.

Lemma NaN_never_locks (x da : double) :
  d_le (fabs (d_sub S754_nan x)) da = false /\
  d_le (d_mul (fabs (d_sub S754_nan x)) (d_of_Z 15)) da = false.
Proof. destruct x; split; reflexivity. Qed.

Lemma TimerHit_NaN_target (c : clock) (s : state) :
  TrackState s = SCOPE_SLEWING ->
  targetRA s = S754_nan \/ targetDEC s = S754_nan ->
  TrackState (TimerHit c s) = SCOPE_SLEWING /\
  targetRA (TimerHit c s) = targetRA s /\ targetDEC (TimerHit c s) = targetDEC s.
Proof.
  intros Hs Hnan. rewrite TimerHit_unfold.
  set (step := d_mul (d_of_Z SLEW_RATE) (elapsed (ltv s) (now c))).
  destruct (advance_slewing step step
              (Telescope_TimerHit (julian c) (set_ltv (now c) s)) Hs)
    as (_ & _ & HtRA & HtDEC & HT).
  rewrite HT, HtRA, HtDEC. split; [|split; reflexivity].
  unfold ra_locked, dec_locked.
  change (targetRA (Telescope_TimerHit (julian c) (set_ltv (now c) s))) with (targetRA s).
  change (targetDEC (Telescope_TimerHit (julian c) (set_ltv (now c) s))) with (targetDEC s).
  set (s1 := Telescope_TimerHit (julian c) (set_ltv (now c) s)).
  destruct Hnan as [-> | ->].
  - destruct (NaN_never_locks (currentRA s1) step) as [_ E]. rewrite E. reflexivity.
  - destruct (NaN_never_locks (currentDEC s1) step) as [E _]. rewrite E, andb_false_r.
    reflexivity.
Qed.

(** X6: [Goto] does not validate its arguments, and a NaN for either
    coordinate is a target no tick can lock onto: the mount then stays
    slewing through every run of ticks. *)
Theorem NaN_target_never_tracks (cs : list clock) (s : state) :
  TrackState s = SCOPE_SLEWING ->
  targetRA s = S754_nan \/ targetDEC s = S754_nan ->
  TrackState (ticks cs s) = SCOPE_SLEWING.
Proof.
  revert s. induction cs as [|c cs IH]; intros s Hs Hnan; [exact Hs|].
  rewrite ticks_cons.
  destruct (TimerHit_NaN_target c s Hs Hnan) as (E & ERA & EDEC).
  apply IH; [exact E|]. rewrite ERA, EDEC. exact Hnan.
Qed.

Lemma d_add_plus_zero (x : double) :
  d_add x (S754_zero false) = x \/
  x = S754_zero true /\ d_add x (S754_zero false) = S754_zero false.
Proof. destruct x as [[|]|[|]| |[|] m e]; cbn; auto. Qed.

Lemma d_sub_plus_zero (x : double) : d_sub x (S754_zero false) = x.
Proof. destruct x as [[|]|[|]| |[|] m e]; reflexivity. Qed.

(** X7: a tick that sees no elapsed time moves no axis, except to put it on
    its target: each coordinate afterwards is the target or the value from
    before (a negative zero may come back as the positive zero). The first
    tick of the driver is such a tick, whatever the clock reads. *)
Theorem tick_without_elapsed_time (c : clock) (s : state) :
  elapsed (ltv s) (now c) = S754_zero false ->
  (currentRA (TimerHit c s) = targetRA s \/
   currentRA (TimerHit c s) = currentRA s \/
   currentRA s = S754_zero true /\ currentRA (TimerHit c s) = S754_zero false) /\
  (currentDEC (TimerHit c s) = targetDEC s \/
   currentDEC (TimerHit c s) = currentDEC s \/
   currentDEC s = S754_zero true /\ currentDEC (TimerHit c s) = S754_zero false).
Proof.
  intros Hdt. rewrite TimerHit_unfold, Hdt.
  change (d_mul (d_of_Z SLEW_RATE) (S754_zero false)) with (S754_zero false).
  set (s1 := Telescope_TimerHit (julian c) (set_ltv (now c) s)).
  change (targetRA s) with (targetRA s1). change (targetDEC s) with (targetDEC s1).
  change (currentRA s) with (currentRA s1). change (currentDEC s) with (currentDEC s1).
  destruct (SLEWING_dec (TrackState s1)) as [Hs | Hs].
  - destruct (advance_slewing (S754_zero false) (S754_zero false) s1 Hs)
      as (ERA & EDEC & _).
    rewrite ERA, EDEC.
    change (d_div (S754_zero false) (d_of_Z 15)) with (S754_zero false).
    rewrite !d_sub_plus_zero. clear ERA EDEC. split.
    + destruct (d_le _ _); [left; reflexivity|].
      destruct (d_gt _ _); [|right; left; reflexivity].
      destruct (d_add_plus_zero (currentRA s1)) as [E | [E1 E2]]; rewrite ?E; auto.
    + destruct (d_le _ _); [left; reflexivity|].
      destruct (d_gt _ _); [|right; left; reflexivity].
      destruct (d_add_plus_zero (currentDEC s1)) as [E | [E1 E2]]; rewrite ?E; auto.
  - destruct (advance_not_slewing (S754_zero false) (S754_zero false) s1 Hs)
      as (ERA & EDEC & _).
    rewrite ERA, EDEC. auto.
Qed.

Lemma advance_published (da_ra da_dec : double) (s : state) :
  HorizontalCoordsN (advance da_ra da_dec s) = HorizontalCoordsN s /\
  EqN (advance da_ra da_dec s) = EqN s.
Proof.
  unfold advance. destruct (TrackState s);
    repeat match goal with
           | |- context [if ?b then _ else _] => destruct b
           end; split; reflexivity.
Qed.

(** X8: a tick publishes before it moves: the horizontal pair and the
    reported equatorial pair it leaves behind are those of the position the
    mount had when the tick began, not of the position the tick moved it to. *)
Theorem tick_publishes_position_before_move (c : clock) (s : state) :
  HorizontalCoordsN (TimerHit c s) =
    (let hrz := ln_get_hrz_from_equ (d_mul (currentRA s) (d_of_Z 15), currentDEC s)
                                    (lnobserver_lng s, LocationN_LATITUDE s) (julian c) in
     (range360 (d_add (fst hrz) (d_of_Z 180)), snd hrz)) /\
  EqN (TimerHit c s) = (currentRA s, currentDEC s).
Proof.
  rewrite TimerHit_unfold.
  destruct (advance_published
              (d_mul (d_of_Z SLEW_RATE) (elapsed (ltv s) (now c)))
              (d_mul (d_of_Z SLEW_RATE) (elapsed (ltv s) (now c)))
              (Telescope_TimerHit (julian c) (set_ltv (now c) s))) as [E1 E2].
  rewrite E1, E2. split; reflexivity.
Qed.
End TickFacts.

Section TickRuns.
Import IEEE754 INDI AltAzMountSimulator.

Lemma slewing_tick_tracks_iff_both_lock_witness :
  TrackState (@TimerHit no_sky t0 arrived_mount) = SCOPE_TRACKING /\
  TrackState (@TimerHit no_sky t1 declination_slew) = SCOPE_SLEWING.
Proof.
  split.
  - apply (proj1 (@slewing_tick_tracks_iff_both_lock no_sky t0 arrived_mount eq_refl)).
    split; vm_compute; reflexivity.
  - apply (proj2 (@slewing_tick_tracks_iff_both_lock no_sky t1 declination_slew eq_refl)).
    intros K.
    apply (proj1 (@slewing_tick_tracks_iff_both_lock no_sky t1 declination_slew eq_refl)) in K.
    destruct K as [_ K]. vm_compute in K. discriminate K.
Defined.

Lemma ticks_outside_slew_keep_motion_witness :
  motion (@ticks no_sky [t0; t1; t0] parked_mount) = motion parked_mount.
Proof.
  apply (@ticks_outside_slew_keep_motion no_sky [t0; t1; t0] parked_mount).
  vm_compute. discriminate.
Defined.

Lemma NaN_target_never_tracks_witness :
  TrackState (@ticks no_sky [t0; t1; t1]
                (snd (Goto S754_nan (d_of_Z 45) (initial (d_of_Z 0) (d_of_Z 0)))))
  = SCOPE_SLEWING.
Proof.
  apply (@NaN_target_never_tracks no_sky); [reflexivity | left; reflexivity].
Defined.

Lemma tick_without_elapsed_time_witness :
  currentRA (@TimerHit no_sky t1 declination_slew) = targetRA declination_slew /\
  currentDEC (@TimerHit no_sky t1 declination_slew) = currentDEC declination_slew.
Proof.
  destruct (@tick_without_elapsed_time no_sky t1 declination_slew) as [ERA EDEC].
  { vm_compute. reflexivity. }
  split.
  - destruct ERA as [E | [E | [E _]]]; [exact E | rewrite E; reflexivity | discriminate E].
  - destruct EDEC as [E | [E | [E _]]]; [| exact E | discriminate E].
    vm_compute in E. discriminate E.
Defined.
End TickRuns.

(** ** More on the 10micron status poll *)

Section PollMoreFacts.
Import IEEE754 INDI CLib LX200_10MICRON.
Local Open Scope string_scope.
Local Open Scope Z_scope.
Context `{GSTAT} `{NumericInput} `{LX200Generic}.

Lemma terminated_reply_not_blank (data reply : string) :
  terminate_after "#" data = Some reply -> skip_space reply <> EmptyString.
Proof.
  revert reply. induction data as [|c r IH]; intros reply; cbn [terminate_after].
  - discriminate.
  - destruct (Ascii.eqb_spec c "#") as [-> | Hc].
    + intros E. injection E as <-. cbn. discriminate.
    + destruct (terminate_after "#" r) as [reply'|]; cbn [option_map]; [|discriminate].
      intros E. injection E as <-. cbn [skip_space].
      destruct (isspace c); [apply IH; reflexivity | discriminate].
Qed.

(** On a text that is not blank the [sscanf] of the poll answers the number
    of converted fields. *)
Lemma parse_Ginfo_count (reply : string) :
  skip_space reply <> EmptyString ->
  0 <= nbytes_read (parse_Ginfo reply) <= 8.
Proof.
  intros Hblank.
  unfold parse_Ginfo, sscanf.
  change (directives "%g,%g,%c,%g,%g,%g,%d,%d#")
    with [Conv_float; Literal ","; Conv_float; Literal ","; Conv_char; Literal ",";
          Conv_float; Literal ","; Conv_float; Literal ","; Conv_float; Literal ",";
          Conv_int; Literal ","; Conv_int; Literal "#"].
  cbn [scan]. destruct (skip_space reply) as [|c r]; [contradiction|].
  repeat match goal with
         | |- context [match scan_float ?x with _ => _ end] =>
             destruct (scan_float x) as [[? ?]|]
         | |- context [match scan_int ?x with _ => _ end] =>
             destruct (scan_int x) as [[? ?]|]
         | |- context [match skip_space ?x with _ => _ end] =>
             destruct (skip_space x)
         | |- context [match ?x with EmptyString => _ | String _ _ => _ end] =>
             destruct x
         | |- context [if Ascii.eqb ?a ?b then _ else _] =>
             destruct (Ascii.eqb a b)
         end; cbn; lia.
Qed.

(** X9: the [sscanf] of the poll never answers [EOF]: the text it is given
    ends in the terminator, so it is never blank, and [nbytes_read] is the
    number of converted fields, from 0 on. The test [nbytes_read < 0] of
    [ReadScopeStatus] therefore never fires, whatever the mount sends. *)
Theorem poll_sscanf_never_EOF (data reply : string) :
  terminate_after "#" data = Some reply ->
  0 <= nbytes_read (parse_Ginfo reply) <= 8.
Proof.
  intros Hterm. apply parse_Ginfo_count.
  exact (terminated_reply_not_blank data reply Hterm).
Qed.

(** The fields a poll may write, and those it must leave alone. *)
Lemma poll_cases (io : exchange) (s : state) :
  Simulation s = false ->
  (fst (ReadScopeStatus io s) = false /\
   motion (snd (ReadScopeStatus io s)) = motion s /\
   (Connected s = false \/ write_result io <> TTY_OK \/ read_result io <> TTY_OK \/
    terminate_after "#" (data io) = None \/
    exists reply, terminate_after "#" (data io) = Some reply /\
                  ~ In (Gstat (parse_Ginfo reply)) known_codes)) \/
  (exists reply t,
     Connected s = true /\ write_result io = TTY_OK /\ read_result io = TTY_OK /\
     terminate_after "#" (data io) = Some reply /\
     In (Gstat (parse_Ginfo reply)) known_codes /\
     TrackState_of_Gstat (Gstat (parse_Ginfo reply)) = Some t /\
     fst (ReadScopeStatus io s) = true /\
     TrackState (snd (ReadScopeStatus io s)) = t /\
     OldGstat (snd (ReadScopeStatus io s)) = Gstat (parse_Ginfo reply) /\
     EqN (snd (ReadScopeStatus io s)) =
       (double_of_float (RA_JNOW (parse_Ginfo reply)),
        double_of_float (DEC_JNOW (parse_Ginfo reply))) /\
     Parked (snd (ReadScopeStatus io s)) =
       (Parked s || TelescopeStatus_eqb t SCOPE_PARKED)).
Proof.
  intros Hsim. unfold ReadScopeStatus. rewrite Hsim.
  destruct (Connected s); cbn [negb]; [|left; auto].
  destruct (write_result io) as [|wc] eqn:Hw; cbn [negb is_TTY_OK];
    [|left; repeat split; right; left; discriminate].
  destruct (read_result io) as [|rc] eqn:Hr; cbn [negb is_TTY_OK];
    [|left; repeat split; right; right; left; discriminate].
  destruct (terminate_after "#" (data io)) as [reply|] eqn:Hterm;
    [|left; repeat split; auto].
  pose proof (parse_Ginfo_count reply (terminated_reply_not_blank _ _ Hterm)) as [Hn _].
  destruct (Z.ltb_spec (nbytes_read (parse_Ginfo reply)) 0) as [Hlt|_]; [lia|].
  cbn [LOG OldGstat].
  destruct (TrackState_of_Gstat (Gstat (parse_Ginfo reply))) as [t|] eqn:Ht.
  - right. exists reply, t.
    assert (Hin : In (Gstat (parse_Ginfo reply)) known_codes).
    { destruct (in_dec Z.eq_dec (Gstat (parse_Ginfo reply)) known_codes) as [Hin|Hout];
        [exact Hin|].
      rewrite (TrackState_of_Gstat_unknown _ Hout) in Ht. discriminate Ht. }
    destruct (negb (Gstat (parse_Ginfo reply) =? OldGstat s) && negb (OldGstat s =? -1));
      cbn; destruct (TelescopeStatus_eqb t SCOPE_PARKED) eqn:Et;
      destruct (Parked s) eqn:Ep; cbn; rewrite ?Ep; repeat split; auto.
  - left.
    assert (Hout : ~ In (Gstat (parse_Ginfo reply)) known_codes).
    { intros Hin. destruct (TrackState_of_Gstat_known _ Hin) as [t Ht']. congruence. }
    destruct (negb (Gstat (parse_Ginfo reply) =? OldGstat s) && negb (OldGstat s =? -1));
      repeat split; right; right; right; right; exists reply; auto.
Qed.

(** X10: a poll that fails keeps what the driver knew: whenever
    [ReadScopeStatus] answers false, for whatever reason (not connected, a
    failed write or read, no terminator, an unknown status code), the Motion
    State, the reported coordinates, [OldGstat] and the parked flag are the ones
    from before. *)
Theorem failed_poll_keeps_state (io : exchange) (s : state) :
  fst (ReadScopeStatus io s) = false ->
  motion (snd (ReadScopeStatus io s)) = motion s.
Proof.
  intros Hfail. destruct (Simulation s) eqn:Hsim.
  - unfold ReadScopeStatus in *. rewrite Hsim in *.
    destruct (negb (Connected s)); [reflexivity | discriminate Hfail].
  - destruct (poll_cases io s Hsim) as [(_ & E & _) | (reply & t & K)]; [exact E|].
    destruct K as (_ & _ & _ & _ & _ & _ & K & _). congruence.
Qed.

(** X11: outside simulation the poll succeeds exactly when the mount is
    connected, the write and the read both succeed, and the text up to the
    first terminator carries one of the fourteen status codes in its seventh
    field. Nothing else is looked at: neither the number of fields converted
    nor the eighth field. *)
Theorem poll_succeeds_iff (io : exchange) (s : state) :
  Simulation s = false ->
  (fst (ReadScopeStatus io s) = true <->
   Connected s = true /\ write_result io = TTY_OK /\ read_result io = TTY_OK /\
   exists reply, terminate_after "#" (data io) = Some reply /\
                 In (Gstat (parse_Ginfo reply)) known_codes).
Proof.
  intros Hsim. destruct (poll_cases io s Hsim) as [(F & _ & Why) | (reply & t & K)].
  - split; [congruence|]. intros (Hc & Hw & Hr & reply & Hterm & Hin). exfalso.
    destruct Why as [E | [E | [E | [E | (reply' & E & Hout)]]]]; congruence.
  - destruct K as (Hc & Hw & Hr & Hterm & Hin & _ & T & _).
    split; [|intros _; exact T]. intros _. repeat split; auto. exists reply. auto.
Qed.

(** X13: a poll never clears the parked flag, and a successful poll that
    leaves the Motion State parked leaves the flag set: the flag is raised by
    the mount's own report and stays up through every later report, tracking
    and slewing included. *)
Theorem poll_parked_flag (io : exchange) (s : state) :
  Simulation s = false ->
  (Parked s = true -> Parked (snd (ReadScopeStatus io s)) = true) /\
  (fst (ReadScopeStatus io s) = true ->
   TrackState (snd (ReadScopeStatus io s)) = SCOPE_PARKED ->
   Parked (snd (ReadScopeStatus io s)) = true) /\
  (Parked (snd (ReadScopeStatus io s)) = true -> Parked s = false ->
   fst (ReadScopeStatus io s) = true /\
   TrackState (snd (ReadScopeStatus io s)) = SCOPE_PARKED).
Proof.
  intros Hsim. destruct (poll_cases io s Hsim) as [(F & E & _) | (reply & t & K)].
  - unfold motion in E. injection E as _ _ _ E. rewrite E, F.
    repeat split; congruence.
  - destruct K as (_ & _ & _ & _ & _ & _ & T & ET & _ & _ & EP).
    rewrite EP, ET, T. split; [intros ->; reflexivity|]. split.
    + intros _ ->. apply orb_true_r.
    + intros E Hp. rewrite Hp in E. cbn in E. split; [reflexivity|].
      destruct t; try discriminate E; reflexivity.
Qed.

(** X14: a successful poll stores what the reply said: [OldGstat] is the
    seventh field and the reported coordinates are the first two fields, read
    as [float] and widened; the azimuth, altitude, Julian date, pier side and
    slew status of the reply go nowhere. *)
Theorem successful_poll_stores_reply (io : exchange) (s : state) (reply : string) :
  Simulation s = false ->
  terminate_after "#" (data io) = Some reply ->
  fst (ReadScopeStatus io s) = true ->
  OldGstat (snd (ReadScopeStatus io s)) = Gstat (parse_Ginfo reply) /\
  EqN (snd (ReadScopeStatus io s)) =
    (double_of_float (RA_JNOW (parse_Ginfo reply)),
     double_of_float (DEC_JNOW (parse_Ginfo reply))) /\
  TrackState_of_Gstat (Gstat (parse_Ginfo reply)) =
    Some (TrackState (snd (ReadScopeStatus io s))).
Proof.
  intros Hsim Hterm Hok.
  destruct (poll_cases io s Hsim) as [(F & _) | (reply' & t & K)]; [congruence|].
  destruct K as (_ & _ & _ & Hterm' & _ & Ht & _ & ET & EO & EE & _).
  rewrite Hterm in Hterm'. injection Hterm' as <-.
  rewrite EO, EE, ET, Ht. repeat split.
Qed.

Lemma terminate_after_ignores_tail (a b : string) :
  terminate_after "#" (a ++ String "#" b) = terminate_after "#" (a ++ "#").
Proof.
  induction a as [|c a IH]; cbn [append terminate_after].
  - reflexivity.
  - destruct (Ascii.eqb c "#"); [reflexivity|]. rewrite IH. reflexivity.
Qed.

(** X12: the poll reads the reply up to its first terminator and nothing
    after it: whatever follows the first [#] in the buffer, left over from
    the line or not, changes neither the answer nor the state. *)
Theorem poll_ignores_bytes_after_terminator
    (w r : TTY_ERROR) (a b : string) (s : state) :
  ReadScopeStatus {| write_result := w; read_result := r; data := a ++ String "#" b |} s =
  ReadScopeStatus {| write_result := w; read_result := r; data := a ++ "#" |} s.
Proof.
  unfold ReadScopeStatus. cbn [write_result read_result data].
  rewrite terminate_after_ignores_tail. reflexivity.
Qed.
End PollMoreFacts.

(** ** Product information of the 10micron mount *)

Section MonthFacts.
Import IEEE754 INDI CLib CLibText LX200_10MICRON LX200_10MICRON_Info.
Local Open Scope string_scope.
Local Open Scope Z_scope.

Lemma strcasecmp_eq_sym (a : string) : forall b, strcasecmp_eq a b = strcasecmp_eq b a.
Proof.
  induction a as [|x a IH]; intros [|y b]; cbn; try reflexivity.
  rewrite IH, Ascii.eqb_sym. reflexivity.
Qed.

Lemma strcasecmp_eq_trans (a : string) : forall b c,
  strcasecmp_eq a b = true -> strcasecmp_eq b c = true -> strcasecmp_eq a c = true.
Proof.
  induction a as [|x a IH]; intros [|y b] [|z c]; cbn; try discriminate; auto.
  rewrite !andb_true_iff, !Ascii.eqb_eq. intros [E1 H1] [E2 H2].
  split; [congruence | eapply IH; eassumption].
Qed.

Lemma strcasecmp_eq_length (a : string) : forall b,
  strcasecmp_eq a b = true -> String.length b = String.length a.
Proof.
  induction a as [|x a IH]; intros [|y b]; cbn; try discriminate; auto.
  rewrite andb_true_iff. intros [_ E]. f_equal. apply IH. exact E.
Qed.

Lemma strcasecmp_eq_same_class (a b n : string) :
  strcasecmp_eq a b = true -> strcasecmp_eq n a = strcasecmp_eq n b.
Proof.
  intros E. destruct (strcasecmp_eq n a) eqn:Ea.
  - symmetry. eapply strcasecmp_eq_trans; eassumption.
  - destruct (strcasecmp_eq n b) eqn:Eb; [|reflexivity].
    rewrite strcasecmp_eq_sym in E.
    rewrite (strcasecmp_eq_trans n b a Eb E) in Ea. discriminate Ea.
Qed.

(** X15: [monthToNumber] does not look at the case of its argument: two names
    that [strcasecmp] holds equal get the same number; and it tells the months
    apart: two names with the same number, other than 0, are equal up to case. *)
Theorem monthToNumber_up_to_case (a b : string) :
  (strcasecmp_eq a b = true -> monthToNumber a = monthToNumber b) /\
  (monthToNumber a = monthToNumber b -> monthToNumber a <> 0 ->
   strcasecmp_eq a b = true).
Proof.
  split.
  - intros E. unfold monthToNumber, month_table, month_lookup.
    repeat rewrite (strcasecmp_eq_same_class a b _ E). reflexivity.
  - unfold monthToNumber, month_table, month_lookup.
    set (same := strcasecmp_eq a b).
    repeat match goal with
           | |- context [strcasecmp_eq ?n a] =>
               let E := fresh "Ea" in destruct (strcasecmp_eq n a) eqn:E
           end;
    repeat match goal with
           | |- context [strcasecmp_eq ?n b] =>
               let E := fresh "Eb" in destruct (strcasecmp_eq n b) eqn:E
           end;
    intros Hid Hnz; try discriminate Hid; try (exfalso; apply Hnz; reflexivity);
    subst same;
    match goal with
    | Ha : strcasecmp_eq ?n a = true, Hb : strcasecmp_eq ?n b = true |- _ =>
        rewrite strcasecmp_eq_sym in Ha; exact (strcasecmp_eq_trans a n b Ha Hb)
    end.
Qed.

Lemma monthToNumber_bounds (monthName : string) : 0 <= monthToNumber monthName <= 12.
Proof.
  unfold monthToNumber, month_table, month_lookup.
  repeat match goal with
         | |- context [strcasecmp_eq ?n monthName] => destruct (strcasecmp_eq n monthName)
         end; lia.
Qed.

(** X16: [monthToNumber] answers a number from 0 to 12, and a number other
    than 0 only for a name of exactly three characters: an empty name, a full
    month name and a name with anything around it all give 0. *)
Theorem monthToNumber_range (monthName : string) :
  0 <= monthToNumber monthName <= 12 /\
  (monthToNumber monthName <> 0 -> String.length monthName = 3%nat).
Proof.
  unfold monthToNumber, month_table, month_lookup.
  repeat match goal with
         | |- context [strcasecmp_eq ?n monthName] =>
             let E := fresh "E" in destruct (strcasecmp_eq n monthName) eqn:E
         end;
  (split; [lia|]); intros Hnz; try (exfalso; apply Hnz; reflexivity);
  match goal with
  | Ha : strcasecmp_eq ?n monthName = true |- _ =>
      exact (strcasecmp_eq_length n monthName Ha)
  end.
Qed.
End MonthFacts.

Section FirmwareDateFacts.
Import IEEE754 INDI CLib CLibText LX200_10MICRON LX200_10MICRON_Info.
Local Open Scope string_scope.
Local Open Scope Z_scope.

Lemma digit_cases (v : Z) :
  0 <= v <= 9 ->
  v = 0 \/ v = 1 \/ v = 2 \/ v = 3 \/ v = 4 \/ v = 5 \/ v = 6 \/ v = 7 \/ v = 8 \/ v = 9.
Proof. lia. Qed.

Lemma digit_char_facts (v : Z) :
  0 <= v <= 9 ->
  isdigit (digit_char v) = true /\ digit_value (digit_char v) = v /\
  isspace (digit_char v) = false /\
  Ascii.eqb (digit_char v) "-" = false /\ Ascii.eqb (digit_char v) "+" = false.
Proof.
  intros Hv.
  destruct (digit_cases v Hv) as [-> | [-> | [-> | [-> | [-> | [-> | [-> | [-> | [-> | ->]]]]]]]]];
    repeat split; reflexivity.
Qed.

(** Reading back two and four digits, whatever follows them. *)
Lemma scan_two_digits (d : Z) (rest : string) :
  0 <= d <= 99 ->
  decimal_int_width 2 (two_digits d ++ rest) = Some (d, rest) /\
  skip_space (two_digits d ++ rest) = two_digits d ++ rest.
Proof.
  intros Hd.
  assert (H1 : 0 <= d / 10 <= 9) by (Z.div_mod_to_equations; lia).
  assert (H0 : 0 <= d mod 10 <= 9) by (Z.div_mod_to_equations; lia).
  destruct (digit_char_facts _ H1) as (D1 & V1 & S1 & M1 & P1).
  destruct (digit_char_facts _ H0) as (D0 & V0 & _).
  unfold two_digits. cbn [append skip_space]. rewrite S1. split; [|reflexivity].
  unfold decimal_int_width. rewrite M1, P1. cbn [orb digits_width].
  rewrite D1, D0, V1, V0. cbn [Z.eqb Z.add Pos.add Pos.succ].
  f_equal. f_equal. Z.div_mod_to_equations; lia.
Qed.

Lemma scan_four_digits (y : Z) :
  0 <= y <= 9999 ->
  decimal_int_width 4 (four_digits y) = Some (y, EmptyString) /\
  skip_space (four_digits y) = four_digits y.
Proof.
  intros Hy.
  assert (H3 : 0 <= y / 1000 <= 9) by (Z.div_mod_to_equations; lia).
  assert (H2 : 0 <= y / 100 mod 10 <= 9) by (Z.div_mod_to_equations; lia).
  assert (H1 : 0 <= y / 10 mod 10 <= 9) by (Z.div_mod_to_equations; lia).
  assert (H0 : 0 <= y mod 10 <= 9) by (Z.div_mod_to_equations; lia).
  destruct (digit_char_facts _ H3) as (D3 & V3 & S3 & M3 & P3).
  destruct (digit_char_facts _ H2) as (D2 & V2 & _).
  destruct (digit_char_facts _ H1) as (D1 & V1 & _).
  destruct (digit_char_facts _ H0) as (D0 & V0 & _).
  unfold four_digits. cbn [skip_space]. rewrite S3. split; [|reflexivity].
  unfold decimal_int_width. rewrite M3, P3. cbn [orb digits_width].
  rewrite D3, D2, D1, D0, V3, V2, V1, V0. cbn [Z.eqb Z.add Pos.add Pos.succ].
  f_equal. f_equal. Z.div_mod_to_equations; lia.
Qed.

Lemma word_no_space (w rest : string) :
  no_space w = true -> word (w ++ String " " rest) = (w, String " " rest).
Proof.
  induction w as [|c w IH]; cbn [no_space append word]; intros Hw.
  - reflexivity.
  - apply andb_true_iff in Hw. destruct Hw as [Hc Hw].
    apply negb_true_iff in Hc. rewrite Hc, (IH Hw). reflexivity.
Qed.

Lemma printf_two_digits_grid :
  forallb (fun d => String.eqb (printf_0Nd 2 d) (two_digits d)) (grid 0 (Z.to_nat 100)) = true.
Proof. vm_compute. reflexivity. Qed.

Lemma printf_four_digits_grid :
  forallb (fun y => String.eqb (printf_0Nd 4 y) (four_digits y)) (grid 0 (Z.to_nat 10000)) = true.
Proof. vm_cast_no_check (eq_refl true). Qed.

Lemma printf_two_digits (d : Z) : 0 <= d <= 99 -> printf_0Nd 2 d = two_digits d.
Proof.
  intros Hd. pose proof printf_two_digits_grid as G. rewrite forallb_forall in G.
  apply String.eqb_eq, G, grid_covers. rewrite Z2Nat.id; lia.
Qed.

Lemma printf_four_digits (y : Z) : 0 <= y <= 9999 -> printf_0Nd 4 y = four_digits y.
Proof.
  intros Hy. pose proof printf_four_digits_grid as G. rewrite forallb_forall in G.
  apply String.eqb_eq, G, grid_covers. rewrite Z2Nat.id; lia.
Qed.

(** X17: the firmware date is put together from the two answers of the
    mount: for a first answer made of a word of one to three characters (the
    month), a day in two digits and a year in four, separated by single
    spaces, the text is the year, the month's number in two digits (00 for a
    word that is no month), the day and, after a [T], the second answer as it
    came, cut to the 79 characters that fit the buffer. *)
Theorem FirmwareDate_composed
    (mon FirmwareDate2 mon0 : string) (dd yyyy dd0 yyyy0 : Z) :
  mon <> EmptyString -> no_space mon = true -> (String.length mon <= 3)%nat ->
  0 <= dd <= 99 -> 0 <= yyyy <= 9999 ->
  FirmwareDate (mon ++ " " ++ two_digits dd ++ " " ++ four_digits yyyy)
               FirmwareDate2 mon0 dd0 yyyy0 =
  Some (snprintf 80
          (four_digits yyyy ++ "-" ++ two_digits (monthToNumber mon) ++ "-" ++
           two_digits dd ++ "T" ++ FirmwareDate2)).
Proof.
  intros Hne Hns Hlen Hdd Hyyyy. unfold FirmwareDate, scan_FirmwareDate1.
  assert (Hskip : skip_space (mon ++ " " ++ two_digits dd ++ " " ++ four_digits yyyy)
                  = mon ++ " " ++ two_digits dd ++ " " ++ four_digits yyyy).
  { destruct mon as [|c m]; [contradiction|]. cbn [no_space] in Hns.
    apply andb_true_iff in Hns. destruct Hns as [Hc _]. apply negb_true_iff in Hc.
    cbn [append skip_space]. rewrite Hc. reflexivity. }
  rewrite Hskip. clear Hskip.
  destruct (mon ++ " " ++ two_digits dd ++ " " ++ four_digits yyyy) as [|c0 r0] eqn:E.
  { destruct mon; [contradiction | discriminate E]. }
  rewrite <- E. clear E c0 r0.
  change (mon ++ " " ++ two_digits dd ++ " " ++ four_digits yyyy)
    with (mon ++ String " " (two_digits dd ++ String " " (four_digits yyyy))).
  rewrite (word_no_space mon _ Hns).
  destruct (Nat.ltb_spec 3 (String.length mon)) as [Hlt|_]; [lia|].
  change (skip_space (String " " (two_digits dd ++ String " " (four_digits yyyy))))
    with (skip_space (two_digits dd ++ String " " (four_digits yyyy))).
  destruct (scan_two_digits dd (String " " (four_digits yyyy)) Hdd) as [Edd Sdd].
  rewrite Sdd, Edd.
  change (skip_space (String " " (four_digits yyyy))) with (skip_space (four_digits yyyy)).
  destruct (scan_four_digits yyyy Hyyyy) as [Eyyyy Syyyy].
  rewrite Syyyy, Eyyyy.
  rewrite (printf_four_digits yyyy Hyyyy), (printf_two_digits dd Hdd).
  rewrite (printf_two_digits (monthToNumber mon));
    [reflexivity | pose proof (monthToNumber_bounds mon); lia].
Qed.
End FirmwareDateFacts.

(** ** The refraction pressure codec *)

Section PressureFacts.
Import IEEE754 INDI CLib CLibText LX200_10MICRON LX200_10MICRON_Info.
Local Open Scope string_scope.
Local Open Scope Z_scope.

Lemma pressure_roundtrip_check_grid :
  forallb pressure_roundtrip_check (grid 0 (Z.to_nat 100000)) = true.
Proof. vm_cast_no_check (eq_refl true). Qed.

Lemma pressure_roundtrip_check_in_range (k : Z) :
  0 <= k <= 99999 -> pressure_roundtrip_check k = true.
Proof.
  intros Hk. pose proof pressure_roundtrip_check_grid as G. rewrite forallb_forall in G.
  apply G, grid_covers. rewrite Z2Nat.id; lia.
Qed.

(** X18: for every pressure [k / 10] of the grid from 0.0 to 9999.9 hPa the
    command sent is [#:SRPRS], a six-character field (four digits, point, one
    digit) and [#]; reading the field back with [%f#], as [getBasicData] reads
    the mount's answer, gives a value that prints as the same field, whatever
    [rmpres] held: the pressure survives the round trip at its 0.1 resolution. *)
Theorem refraction_pressure_roundtrip
    (k : Z) (rmpres : float) (setStandardProcedure : string -> Z) :
  0 <= k <= 99999 ->
  let p := pressure_of_tenths k in
  let F := printf_06_1f p in
  F = pressure_field k /\ String.length F = 6%nat /\
  SetRefractionModelPressure setStandardProcedure p =
    setStandardProcedure ("#:SRPRS" ++ F ++ "#") /\
  printf_06_1f (@read_rmpres decimal_input F rmpres) = F.
Proof.
  intros Hk p F. pose proof (pressure_roundtrip_check_in_range k Hk) as C.
  unfold pressure_roundtrip_check in C. fold p in C. fold F in C.
  apply andb_true_iff in C. destruct C as [C1 C2]. apply String.eqb_eq in C1.
  assert (HF : String.length F = 6%nat) by (rewrite C1; reflexivity).
  split; [exact C1|]. split; [exact HF|]. split.
  - unfold SetRefractionModelPressure, SRPRS. fold F. f_equal.
    revert HF. generalize F as G. intros G HG.
    do 6 (destruct G as [|? G]; [discriminate HG|]).
    destruct G; [reflexivity | discriminate HG].
  - unfold read_rmpres. destruct (@sscanf decimal_input F "%f#") as [n args].
    destruct n as [|[| |]|]; try discriminate C2.
    destruct args as [|[f| |] [|]]; try discriminate C2.
    apply String.eqb_eq in C2. exact C2.
Qed.

Lemma refraction_pressure_roundtrip_witness :
  printf_06_1f (pressure_of_tenths 10132) = "1013.2" /\
  SetRefractionModelPressure (fun data => Z.of_nat (String.length data))
    (pressure_of_tenths 10132) = 14 /\
  printf_06_1f (@read_rmpres decimal_input "1013.2" S754_nan) = "1013.2".
Proof.
  pose proof (refraction_pressure_roundtrip 10132 S754_nan
                (fun data => Z.of_nat (String.length data)) ltac:(lia)) as W.
  cbv zeta in W. destruct W as (W1 & _ & W3 & W4).
  change (pressure_field 10132) with "1013.2" in W1.
  rewrite W1 in W3, W4.
  split; [exact W1 | split; [exact W3 | exact W4]].
Defined.
End PressureFacts.

(** ** Runs of the extra properties *)

Section MoreRuns.
Import IEEE754 INDI CLib CLibText LX200_10MICRON LX200_10MICRON_Info.
Local Open Scope string_scope.
Local Open Scope Z_scope.

Lemma poll_sscanf_never_EOF_witness :
  0 <= nbytes_read (@parse_Ginfo decimal_input " #") <= 8.
Proof.
  apply (@poll_sscanf_never_EOF decimal_input " #left over" " #"). reflexivity.
Defined.

Lemma failed_poll_keeps_state_witness :
  motion (snd (@ReadScopeStatus protocol_GSTAT decimal_input no_simulator
                 (received "no such reply#") idle_mount)) = motion idle_mount.
Proof.
  apply (@failed_poll_keeps_state protocol_GSTAT decimal_input no_simulator).
  vm_compute. reflexivity.
Defined.

Lemma poll_succeeds_iff_witness :
  fst (@ReadScopeStatus protocol_GSTAT decimal_input no_simulator
         (received parked_reply) idle_mount) = true.
Proof.
  apply (@poll_succeeds_iff protocol_GSTAT decimal_input no_simulator
           (received parked_reply) idle_mount eq_refl).
  split; [reflexivity|]. split; [reflexivity|]. split; [reflexivity|].
  exists parked_reply. split; [reflexivity|]. vm_compute. tauto.
Defined.

Lemma poll_parked_flag_witness :
  Parked idle_mount = false /\
  Parked (snd (@ReadScopeStatus protocol_GSTAT decimal_input no_simulator
                 (received parked_reply) idle_mount)) = true.
Proof.
  split; [reflexivity|].
  apply (proj1 (proj2 (@poll_parked_flag protocol_GSTAT decimal_input no_simulator
                         (received parked_reply) idle_mount eq_refl)));
    vm_compute; reflexivity.
Defined.

Lemma successful_poll_stores_reply_witness :
  OldGstat (snd (@ReadScopeStatus protocol_GSTAT decimal_input no_simulator
                   (received parked_reply) idle_mount)) = 5 /\
  EqN (snd (@ReadScopeStatus protocol_GSTAT decimal_input no_simulator
              (received parked_reply) idle_mount))
  = (d_of_decimal false 15 1, d_of_decimal false 25 1).
Proof.
  destruct (@successful_poll_stores_reply protocol_GSTAT decimal_input no_simulator
              (received parked_reply) idle_mount parked_reply eq_refl eq_refl)
    as (E1 & E2 & _).
  { vm_compute. reflexivity. }
  rewrite E1, E2. split; vm_compute; reflexivity.
Defined.

Lemma monthToNumber_up_to_case_witness :
  monthToNumber "DEC" = monthToNumber "dec" /\ strcasecmp_eq "sEp" "SeP" = true.
Proof.
  split.
  - apply (proj1 (monthToNumber_up_to_case "DEC" "dec")). reflexivity.
  - apply (proj2 (monthToNumber_up_to_case "sEp" "SeP")); [reflexivity | discriminate].
Defined.

Lemma monthToNumber_range_witness :
  0 <= monthToNumber "March" <= 12 /\ String.length "oct" = 3%nat.
Proof.
  split.
  - apply (proj1 (monthToNumber_range "March")).
  - apply (proj2 (monthToNumber_range "oct")). discriminate.
Defined.

Lemma FirmwareDate_composed_witness :
  FirmwareDate "Mar 05 2016" "12:34:56" "" 0 0 = Some "2016-03-05T12:34:56" /\
  FirmwareDate "xyz 31 1999" "00:00:00" "" 0 0 = Some "1999-00-31T00:00:00".
Proof.
  split.
  - apply (FirmwareDate_composed "Mar" "12:34:56" "" 5 2016 0 0);
      [discriminate | reflexivity | cbn; lia | lia | lia].
  - apply (FirmwareDate_composed "xyz" "00:00:00" "" 31 1999 0 0);
      [discriminate | reflexivity | cbn; lia | lia | lia].
Defined.
End MoreRuns.
